(** * Scatter-plot tool: a shallow embedding of [streamlit_dashboard.py]

    The development follows the source file top to bottom: the pandas
    table and its column types, the column classifier
    [get_numeric_columns], the renderer [scatter_figure], the two front
    ends [run_streamlit_app] and [run_cli], and the dispatcher [main].

    Python exceptions are values of [Exn]; a pure function that may raise
    returns a [result]; code that touches the file system, pyplot's figure
    registry, standard output or the Streamlit page runs in the monad [M]
    over an explicit [World]. *)

From Stdlib Require Import Ascii String.
From Stdlib Require SpecFloat.
From stdpp Require Import base strings list gmap pretty.

Open Scope string_scope.

(** ** Python strings *)

Module Py.

(** The double-quote character, code point 34. *)
Definition dquote : ascii := Ascii.ascii_of_nat 34.
Definition squote : ascii := "'"%char.
Definition backslash : ascii := "\"%char.

Definition char_str (c : ascii) : string := String c EmptyString.

Definition contains_char (c : ascii) (s : string) : bool :=
  existsb (Ascii.eqb c) (list_ascii_of_string s).

Definition hex_digit (n : nat) : ascii :=
  nth n (list_ascii_of_string "0123456789abcdef") "0"%char.

(** A string stands for a Python [str] whose characters have code
    points below 256, one [ascii] for each character.

    [repr] of a [str]: single quotes unless the text has a single quote
    and no double quote; backslash and the chosen quote are escaped, and
    so is every character that is not printable: the controls 0 to 31
    and 127 to 159, the no-break space 160 and the soft hyphen 173. *)
Definition repr_char (quote c : ascii) : string :=
  let n := nat_of_ascii c in
  if Ascii.eqb c backslash then "\\"
  else if Ascii.eqb c quote then String backslash (char_str c)
  else if Nat.eqb n 10 then "\n"
  else if Nat.eqb n 13 then "\r"
  else if Nat.eqb n 9 then "\t"
  else if Nat.ltb n 32 || (Nat.leb 127 n && Nat.leb n 160) || Nat.eqb n 173
       then "\x" ++ char_str (hex_digit (n / 16)) ++ char_str (hex_digit (n mod 16))
  else char_str c.

Definition repr (s : string) : string :=
  let quote :=
    if contains_char squote s && negb (contains_char dquote s)
    then dquote else squote in
  char_str quote
    ++ String.concat EmptyString (map (repr_char quote) (list_ascii_of_string s))
    ++ char_str quote.

(** Truthiness of an optional [str]: [None] and the empty string are
    falsy. *)
Definition truthy_str (o : option string) : bool :=
  match o with
  | None => false
  | Some s => negb (String.eqb s EmptyString)
  end.

End Py.

(** ** Tables *)

(** Floating-point values are IEEE binary64 numbers, infinities and NaN
    included; a missing value of a table is the float NaN, as in pandas. *)
Abbreviation double := SpecFloat.spec_float.

(** The binary64 number nearest to [m * 2^e] (ties to even). *)
Definition f64 (m e : Z) : double := SpecFloat.binary_normalize 53 1024 m e false.

Definition is_nan (f : double) : bool :=
  match f with SpecFloat.S754_nan => true | _ => false end.

Definition is_finite (f : double) : bool :=
  match f with
  | SpecFloat.S754_zero _ | SpecFloat.S754_finite _ _ _ => true
  | _ => false
  end.

(** A cell of a table. *)
Inductive Cell :=
| CInt (n : Z)
| CFloat (f : double)
| CStr (s : string)
| CBool (b : bool).

(** The column types that [pd.read_csv] with its defaults and the
    [pd.DataFrame] constructor infer for such cells. *)
Inductive Dtype := int64 | uint64 | float64 | bool_ | object_.

Definition int64_min : Z := - 2 ^ 63.
Definition int64_max : Z := 2 ^ 63 - 1.
Definition uint64_max : Z := 2 ^ 64 - 1.

#[global] Instance Dtype_eq_dec : EqDecision Dtype.
Proof. solve_decision. Defined.

Record Series := { dtype : Dtype; values : list Cell }.

(** A [DataFrame] is its columns, left to right, each with its name. *)
Abbreviation DataFrame := (list (string * Series)).

Definition is_int (c : Cell) : bool := match c with CInt _ => true | _ => false end.
Definition is_float (c : Cell) : bool := match c with CFloat _ => true | _ => false end.
Definition is_bool (c : Cell) : bool := match c with CBool _ => true | _ => false end.

Definition cell_int (c : Cell) : option Z :=
  match c with CInt n => Some n | _ => None end.

(** Integers that no 64-bit column can hold together: one outside both
    the signed and the unsigned range, or one above the signed range
    beside a negative one. *)
Definition ints_clash (ints : list Z) : bool :=
  existsb (fun n => (n <? int64_min)%Z || (uint64_max <? n)%Z) ints
  || (existsb (fun n => (int64_max <? n)%Z) ints && existsb (fun n => (n <? 0)%Z) ints).

(** Type inference of the [pd.DataFrame] constructor on a Python list:
    an empty list and a list of floats, or of floats and integers, give
    [float64]; integers alone give [int64], or [uint64] when one is
    above the signed range; booleans alone give [bool]; everything else,
    and integers that clash, give [object]. *)
Definition infer_dtype (vs : list Cell) : Dtype :=
  match vs with
  | [] => float64
  | _ =>
      if forallb is_bool vs then bool_
      else if forallb (fun c => is_int c || is_float c) vs then
        let ints := omap cell_int vs in
        if ints_clash ints then object_
        else if existsb is_float vs then float64
        else if existsb (fun n => (int64_max <? n)%Z) ints then uint64
        else int64
      else object_
  end.

(** [pd.DataFrame({name: list, ...})]. *)
Definition pd_DataFrame (d : list (string * list Cell)) : DataFrame :=
  (fun '(name, vs) => (name, {| dtype := infer_dtype vs; values := vs |})) <$> d.

(** [df.columns] *)
Definition columns (df : DataFrame) : list string := fst <$> df.

(** [df[name]], the first column of that name. *)
Fixpoint df_get (df : DataFrame) (name : string) : option Series :=
  match df with
  | [] => None
  | (n, s) :: rest => if String.eqb n name then Some s else df_get rest name
  end.




(** [np.number] covers the integer and floating dtypes; [bool] and
    [object] are outside it. *)
Definition is_number (t : Dtype) : bool :=
  match t with
  | int64 | uint64 | float64 => true
  | bool_ | object_ => false
  end.

(** [df.select_dtypes(include=["number"])] *)
Definition select_dtypes_number (df : DataFrame) : DataFrame :=
  filter (fun c => is_number (dtype c.2) = true) df.

(** [df.head()]: the first five rows. *)
Definition df_head (df : DataFrame) : DataFrame :=
  (fun '(name, s) => (name, {| dtype := dtype s; values := take 5 (values s) |})) <$> df.

(** ** Exceptions *)

Abbreviation Path := (list string).

Inductive Exn :=
| ValueError (msg : string)
| KeyError (msg : string)
| FileNotFoundError (msg : string)
| IsADirectoryError (p : Path)
| NotADirectoryError (p : Path)
| FileExistsError (p : Path)
| ParserError (msg : string)
| UnicodeDecodeError
| AssertionError
| SystemExit (code : Z).

Inductive result (A : Type) :=
| Ok (a : A)
| Raise (e : Exn).
Arguments Ok {A} a.
Arguments Raise {A} e.

(** ** The column classifier *)

Definition get_numeric_columns (df : DataFrame) : result (list string) :=
  let numeric_cols := columns (select_dtypes_number df) in
  match numeric_cols with
  | [] => Raise (ValueError "No numeric columns found in the dataset.")
  | _ => Ok numeric_cols
  end.

(** ** The built-in sample *)

Definition _sample_df : DataFrame :=
  pd_DataFrame
    [ ("x", [CInt 1; CInt 2; CInt 3; CInt 4; CInt 5]);
      ("y", [CInt 2; CInt 1; CInt 3; CInt 5; CInt 4]);
      ("z", [CFloat (f64 10 0); CFloat (f64 23 (-1)); CFloat (f64 9 0);
             CFloat (f64 12 0); CFloat (f64 21 (-1))]);
      ("cat", [CStr "a"; CStr "a"; CStr "b"; CStr "b"; CStr "a"]) ].

(** ** Figures *)

(** A coordinate on an axis: a binary64 number, or a category on an axis
    of text values. *)
Inductive Coord :=
| Num (f : double)
| Cat (s : string).

(** What the program fixes of a matplotlib figure: its number in pyplot's
    registry, the points of its single scatter series, the two axis
    labels, the title, and whether [tight_layout] was applied. *)
Record Figure := {
  fig_num : nat;
  fig_points : list (Coord * Coord);
  fig_xlabel : string;
  fig_ylabel : string;
  fig_title : string;
  fig_tight : bool
}.

Definition blank_figure (num : nat) : Figure :=
  {| fig_num := num; fig_points := [];
     fig_xlabel := EmptyString; fig_ylabel := EmptyString;
     fig_title := EmptyString; fig_tight := false |}.

(** [pd.notnull]: every value but NaN. *)
Definition notnull (c : Cell) : bool :=
  match c with
  | CFloat f => negb (is_nan f)
  | _ => true
  end.

(** Where a value of a column falls on an axis: a number as the nearest
    binary64, a boolean as 1.0 or 0.0, text as its category. *)
Definition to_coord (c : Cell) : Coord :=
  match c with
  | CInt n => Num (f64 n 0)
  | CFloat f => Num f
  | CBool b => Num (f64 (if b then 1 else 0) 0)
  | CStr s => Cat s
  end.

(** A coordinate that can be drawn: not NaN and not an infinity. *)
Definition coord_shows (p : Coord) : bool :=
  match p with
  | Num f => is_finite f
  | Cat _ => true
  end.

(** The coordinate seaborn keeps for a value: NaN and the infinities
    count as missing and have none. *)
Definition coord (c : Cell) : option Coord :=
  let p := to_coord c in
  if coord_shows p then Some p else None.

(** The coordinate of a value in a variable that is kept, and NaN in a
    variable that is left out. *)
Definition kept_coord (has : bool) (c : Cell) : option Coord :=
  if has then coord c else Some (Num SpecFloat.S754_nan).

(** A row survives when no kept variable is missing in it. *)
Definition kept_row (has_x has_y : bool) (r : Cell * Cell) : option (Coord * Coord) :=
  px ← kept_coord has_x r.1; py ← kept_coord has_y r.2; Some (px, py).

(** [sns.scatterplot(x=x, y=y, data=df, ax=ax)].  A variable whose column
    holds no value at all is left out; with both left out nothing is
    drawn.  Otherwise the rows with a missing coordinate in a variable
    that is kept are dropped; if none is left nothing is drawn, else row
    [i] becomes the point [(df[x][i], df[y][i])], with NaN for a variable
    left out, and each axis is labelled with the name of its variable. *)
Definition sns_scatterplot (x y : string) (df : DataFrame) (fig : Figure) : Figure :=
  let xs := default [] (values <$> df_get df x) in
  let ys := default [] (values <$> df_get df y) in
  let has_x := existsb notnull xs in
  let has_y := existsb notnull ys in
  if negb (has_x || has_y) then fig
  else
    let rows := omap (kept_row has_x has_y) (zip xs ys) in
    match rows with
    | [] => fig
    | _ =>
        {| fig_num := fig_num fig; fig_points := rows;
           fig_xlabel := if has_x then x else EmptyString;
           fig_ylabel := if has_y then y else EmptyString;
           fig_title := fig_title fig; fig_tight := fig_tight fig |}
    end.
Arguments sns_scatterplot : simpl never.

Definition set_title (t : string) (fig : Figure) : Figure :=
  {| fig_num := fig_num fig; fig_points := fig_points fig;
     fig_xlabel := fig_xlabel fig; fig_ylabel := fig_ylabel fig;
     fig_title := t; fig_tight := fig_tight fig |}.

Definition tight_layout (fig : Figure) : Figure :=
  {| fig_num := fig_num fig; fig_points := fig_points fig;
     fig_xlabel := fig_xlabel fig; fig_ylabel := fig_ylabel fig;
     fig_title := fig_title fig; fig_tight := true |}.

(** ** The world *)

(** A file is either text, stood for by what [pd.read_csv] with its
    defaults returns on it, or a PNG image written by [savefig]. *)
Inductive FileData :=
| Csv (parsed : result DataFrame)
| Png (dpi : Z) (fig : Figure).

Inductive Node := Dir | File (data : FileData).

(** Calls made on the Streamlit page, in order. *)
Inductive StCall :=
| StTitle (s : string)
| StCaption (s : string)
| StInfo (s : string)
| StSubheader (s : string)
| StDataframe (df : DataFrame)
| StWarning (s : string)
| StPyplot (fig : Figure)
| StDownloadButton (label : string) (data : FileData) (file_name mime : string).

(** Paths are lists of components below a base directory; [[]] is the
    base itself, which always exists. *)
Record World := {
  fs : gmap Path Node;
  open_figs : gset nat;
  stdout : list string;
  page : list StCall
}.

Definition set_fs (f : gmap Path Node) (w : World) : World :=
  {| fs := f; open_figs := open_figs w; stdout := stdout w; page := page w |}.
Definition set_open_figs (s : gset nat) (w : World) : World :=
  {| fs := fs w; open_figs := s; stdout := stdout w; page := page w |}.
Definition set_stdout (o : list string) (w : World) : World :=
  {| fs := fs w; open_figs := open_figs w; stdout := o; page := page w |}.
Definition set_page (p : list StCall) (w : World) : World :=
  {| fs := fs w; open_figs := open_figs w; stdout := stdout w; page := p |}.

(** State and exceptions: an exception keeps the effects made so far. *)
Definition M (A : Type) : Type := World -> World * result A.

#[global] Instance M_ret : MRet M := fun A a w => (w, Ok a).
#[global] Instance M_bind : MBind M := fun A B f m w =>
  match m w with
  | (w', Ok a) => f a w'
  | (w', Raise e) => (w', Raise e)
  end.

Definition raise {A} (e : Exn) : M A := fun w => (w, Raise e).
Definition lift {A} (r : result A) : M A := fun w => (w, r).

Definition print (s : string) : M unit :=
  fun w => (set_stdout (stdout w ++ [s]) w, Ok ()).

Definition st (c : StCall) : M unit :=
  fun w => (set_page (page w ++ [c]) w, Ok ()).

(** ** pyplot *)

(** [plt.subplots()]: a new figure registered under the number after the
    largest one in use. *)
Definition plt_subplots : M Figure := fun w =>
  let num := S (set_fold Nat.max O (open_figs w)) in
  (set_open_figs ({[num]} ∪ open_figs w) w, Ok (blank_figure num)).

(** [plt.close(fig)] *)
Definition plt_close (fig : Figure) : M unit := fun w =>
  (set_open_figs (open_figs w ∖ {[fig_num fig]}) w, Ok ()).

(** ** The renderer *)

Definition scatter_figure (df : DataFrame) (x y : string) : M Figure :=
  if negb (bool_decide (x ∈ columns df)) || negb (bool_decide (y ∈ columns df))
  then raise (KeyError ("Columns not in DataFrame: x=" ++ Py.repr x
                          ++ ", y=" ++ Py.repr y))
  else
    fig ← plt_subplots;
    let fig := sns_scatterplot x y df fig in
    let fig := set_title ("Scatter: " ++ x ++ " vs " ++ y) fig in
    let fig := tight_layout fig in
    mret fig.

(** ** The file system *)

Definition fs_lookup (f : gmap Path Node) (p : Path) : option Node :=
  match p with
  | [] => Some Dir
  | _ => f !! p
  end.

(** [str(path)] *)
Definition path_str (p : Path) : string :=
  match p with
  | [] => "."
  | _ => String.concat "/" p
  end.

(** [path.parent] *)
Definition parent (p : Path) : Path := removelast p.

(** [path.exists()] *)
Definition path_exists (p : Path) : M bool := fun w =>
  (w, Ok (bool_decide (is_Some (fs_lookup (fs w) p)))).

(** [pd.read_csv] on the bytes of a file. *)
Definition pd_read_csv (d : FileData) : result DataFrame :=
  match d with
  | Csv parsed => parsed
  | Png _ _ => Raise UnicodeDecodeError
  end.

Definition _read_csv (path : Path) : M DataFrame := fun w =>
  match fs_lookup (fs w) path with
  | None => (w, Raise (FileNotFoundError (path_str path)))
  | Some Dir => (w, Raise (IsADirectoryError path))
  | Some (File d) => (w, pd_read_csv d)
  end.

(** [path.mkdir(parents=True, exist_ok=True)], walking down from the
    base: [walked] is the part already known to be a directory, [todo] the
    components still to visit, [target] the whole path. *)
Fixpoint mkdir_walk (target walked todo : Path) (f : gmap Path Node)
  : result (gmap Path Node) :=
  match todo with
  | [] => Ok f
  | c :: todo' =>
      let p := (walked ++ [c])%list in
      match f !! p with
      | Some Dir => mkdir_walk target p todo' f
      | Some (File _) =>
          match todo' with
          | [] => Raise (FileExistsError target)
          | _ => Raise (NotADirectoryError target)
          end
      | None => mkdir_walk target p todo' (<[p := Dir]> f)
      end
  end.

Definition mkdir_parents (p : Path) : M unit := fun w =>
  match mkdir_walk p [] p (fs w) with
  | Ok f => (set_fs f w, Ok ())
  | Raise e => (w, Raise e)
  end.

(** [fig.savefig(path, format="png", dpi=dpi)] *)
Definition savefig (fig : Figure) (p : Path) (dpi : Z) : M unit := fun w =>
  match fs_lookup (fs w) p with
  | Some Dir => (w, Raise (IsADirectoryError p))
  | _ =>
      match fs_lookup (fs w) (parent p) with
      | Some Dir => (set_fs (<[p := File (Png dpi fig)]> (fs w)) w, Ok ())
      | Some (File _) => (w, Raise (NotADirectoryError p))
      | None => (w, Raise (FileNotFoundError (path_str p)))
      end
  end.

(** ** The headless front end *)

(** [a, b = l] *)
Definition unpack2 (l : list string) : result (string * string) :=
  match l with
  | [a; b] => Ok (a, b)
  | _ :: _ :: _ :: _ => Raise (ValueError "too many values to unpack (expected 2)")
  | _ => Raise (ValueError ("not enough values to unpack (expected 2, got "
                              ++ pretty (length l) ++ ")"))
  end.

Definition run_cli (input_csv : option Path) (x y : option string) (out_path : Path)
  : M Path :=
  df ← match input_csv with
       | None => mret _sample_df
       | Some p =>
           found ← path_exists p;
           if negb found
           then raise (FileNotFoundError ("CSV not found: " ++ path_str p))
           else _read_csv p
       end;
  numeric_columns ← lift (get_numeric_columns df);
  xy ← match x, y with
       | Some x, Some y => mret (x, y)
       | _, _ => lift (unpack2 (take 2 numeric_columns))
       end;
  fig ← scatter_figure df xy.1 xy.2;
  mkdir_parents (parent out_path);;
  savefig fig out_path 144;;
  plt_close fig;;
  mret out_path.

(** ** The interactive front end *)

(** What the user has done on the page when the script runs: the file put
    in the uploader, whether the sample button was pressed, and the
    entries picked in the two select boxes (entry 0 until changed). *)
Record Session := {
  uploaded_file : option FileData;
  use_sample_clicked : bool;
  x_choice : nat;
  y_choice : nat
}.

(** [st.selectbox(label, options=options, index=0)] *)
Definition selectbox (options : list string) (choice : nat) : string :=
  default (hd EmptyString options) (options !! choice).

Definition run_streamlit_app (_HAS_STREAMLIT : bool) (ui : Session) : M unit :=
  (if _HAS_STREAMLIT then mret () else raise AssertionError);;
  st (StTitle "Sample Streamlit Dashboard");;
  st (StCaption "Running in Streamlit mode. Upload a CSV, pick numeric columns, and download the plot.");;
  loaded ← match uploaded_file ui with
           | None =>
               st (StInfo "Upload a CSV to proceed. Or try the built-in sample below.");;
               if use_sample_clicked ui then mret (Some _sample_df) else mret None
           | Some f => df ← lift (pd_read_csv f); mret (Some df)
           end;
  match loaded with
  | None => mret ()
  | Some df =>
      st (StSubheader "Data Preview");;
      st (StDataframe (df_head df));;
      match get_numeric_columns df with
      | Raise (ValueError msg) => st (StWarning msg)
      | Raise e => raise e
      | Ok numeric_columns =>
          let x_axis := selectbox numeric_columns (x_choice ui) in
          let others := filter (fun c => c ≠ x_axis) numeric_columns in
          let y_axis :=
            selectbox (match others with [] => numeric_columns | _ => others end)
                      (y_choice ui) in
          fig ← scatter_figure df x_axis y_axis;
          st (StPyplot fig);;
          let buffer := Png 144 fig in
          st (StDownloadButton "Download plot as PNG" buffer
                ("scatter_" ++ x_axis ++ "_vs_" ++ y_axis ++ ".png") "image/png")
      end
  end.

(** ** The command line *)

(** The [argparse] namespace returned by [parse_args]. *)
Record Namespace := {
  arg_csv : option Path;
  arg_x : option string;
  arg_y : option string;
  arg_out : Path;
  arg_test : bool
}.

(** [Path("plot.png")], the default of [--out]. *)
Definition default_out : Path := ["plot.png"].

(** ** The built-in tests *)

(** [unittest] records a test that raises as failed and goes on. *)
Definition run_test (t : M bool) : M bool := fun w =>
  match t w with
  | (w', Ok b) => (w', Ok b)
  | (w', Raise _) => (w', Ok false)
  end.

Definition test_numeric_detection : M bool :=
  cols ← lift (get_numeric_columns _sample_df);
  mret (bool_decide (cols = ["x"; "y"; "z"])).

Definition test_scatter_returns_figure : M bool :=
  fig ← scatter_figure _sample_df "x" "y";
  plt_close fig;;
  mret true.

(** [tempfile.TemporaryDirectory()] makes the directory [td] and removes
    it with all it holds when the block is left, also by an exception. *)
Definition rmtree (td : Path) : M unit := fun w =>
  (set_fs (filter (fun kv => ¬ td `prefix_of` kv.1) (fs w)) w, Ok ()).

(** The two assertions of the test: the path exists, and what is there
    has a size above zero, as a PNG written by [savefig] has. *)
Definition is_file (p : Path) : M bool := fun w =>
  (w, Ok (match fs_lookup (fs w) p with Some (File _) => true | _ => false end)).

Definition test_cli_writes_png (td : Path) : M bool := fun w =>
  let body :=
    written ← run_cli None None None (td ++ ["out.png"])%list;
    is_file written in
  match body (set_fs (<[td := Dir]> (fs w)) w) with
  | (w', r) => ((rmtree td w').1, r)
  end.

Definition _run_tests_and_exit (td : Path) : M unit :=
  r1 ← run_test (test_cli_writes_png td);
  r2 ← run_test test_numeric_detection;
  r3 ← run_test test_scatter_returns_figure;
  raise (SystemExit (if r1 && r2 && r3 then 0 else 1)).

(** ** The dispatcher *)

Definition newline : string := String (Ascii.ascii_of_nat 10) EmptyString.

(** [_HAS_STREAMLIT] is fixed when the module is imported; [td] is the
    directory [tempfile] hands to the tests and [ui] the state of the
    page; [args] is what [parse_args] returned. *)
Definition main (_HAS_STREAMLIT : bool) (td : Path) (ui : Session) (args : Namespace)
  : M unit :=
  (if arg_test args then _run_tests_and_exit td else mret ());;
  if _HAS_STREAMLIT then
    if (bool_decide (is_Some (arg_csv args))
        || Py.truthy_str (arg_x args) || Py.truthy_str (arg_y args))
       || negb (bool_decide (arg_out args = default_out))
    then
      out ← run_cli (arg_csv args) (arg_x args) (arg_y args) (arg_out args);
      print ("Saved: " ++ path_str out)
    else run_streamlit_app _HAS_STREAMLIT ui
  else
    print ("streamlit not installed; running in CLI mode. To use UI, install with `pip install streamlit`." ++ newline);;
    out ← run_cli (arg_csv args) (arg_x args) (arg_y args) (arg_out args);
    print ("Saved: " ++ path_str out).

(** ** Vocabulary of the specification *)

(** A numeric column: its values were inferred as integers or as
    floating-point numbers, so not as text and not as booleans. *)
Definition numeric_column (s : Series) : Prop :=
  dtype s = int64 ∨ dtype s = uint64 ∨ dtype s = float64.

#[global] Instance numeric_column_dec s : Decision (numeric_column s).
Proof. unfold numeric_column. apply _. Defined.

(** The numeric column list of a table: the names of its numeric columns,
    left to right. *)
Definition numeric_names (df : DataFrame) : list string :=
  fst <$> filter (fun c => numeric_column c.2) df.

(** Those of the two requested names that the table does not have. *)
Definition missing_names (df : DataFrame) (x y : string) : list string :=
  filter (fun n => n ∉ columns df) [x; y].

(** The error kinds of the specification and the exceptions that carry
    them. *)
Inductive ErrorKind := InputNotFound | NoNumericColumns | ColumnNotFound | ParseError.

Definition error_kind (e : Exn) : option ErrorKind :=
  match e with
  | FileNotFoundError _ => Some InputNotFound
  | ValueError msg =>
      if String.eqb msg "No numeric columns found in the dataset."
      then Some NoNumericColumns else None
  | KeyError _ => Some ColumnNotFound
  | ParserError _ | UnicodeDecodeError => Some ParseError
  | _ => None
  end.

(** The table a headless run works on: the sample, or what the input
    file parses to. *)
Definition loaded_table (input_csv : option Path) (w : World) : option DataFrame :=
  match input_csv with
  | None => Some _sample_df
  | Some p =>
      match fs_lookup (fs w) p with
      | Some (File (Csv (Ok df))) => Some df
      | _ => None
      end
  end.

(** "Run the headless variant, print the output path". *)
Definition headless_action (args : Namespace) : M unit :=
  out ← run_cli (arg_csv args) (arg_x args) (arg_y args) (arg_out args);
  print ("Saved: " ++ path_str out).

(** "Some of input/x/y/out was given a value other than its default". *)
Definition given_non_default (args : Namespace) : Prop :=
  arg_csv args ≠ None ∨ arg_x args ≠ None ∨ arg_y args ≠ None
  ∨ arg_out args ≠ default_out.

(** The same with an empty [--x] or [--y] counted as not given. *)
Definition given_non_empty (args : Namespace) : Prop :=
  arg_csv args ≠ None
  ∨ (∃ s, arg_x args = Some s ∧ s ≠ EmptyString)
  ∨ (∃ s, arg_y args = Some s ∧ s ≠ EmptyString)
  ∨ arg_out args ≠ default_out.

(** ** Example inputs *)

Definition empty_world : World :=
  {| fs := ∅; open_figs := ∅; stdout := []; page := [] |}.

(** A table with a single numeric column. *)
Definition one_numeric_df : DataFrame :=
  [ ("a", {| dtype := int64; values := [CInt 1; CInt 2] |});
    ("name", {| dtype := object_; values := [CStr "u"; CStr "v"] |}) ].

Definition one_numeric_world : World :=
  set_fs (<[ ["d.csv"] := File (Csv (Ok one_numeric_df)) ]> ∅) empty_world.

Definition idle_session : Session :=
  {| uploaded_file := None; use_sample_clicked := false; x_choice := 0; y_choice := 0 |}.

Definition no_args : Namespace :=
  {| arg_csv := None; arg_x := None; arg_y := None; arg_out := default_out;
     arg_test := false |}.

(** [--x] given the empty string, and nothing else. *)
Definition empty_x_args : Namespace :=
  {| arg_csv := None; arg_x := Some EmptyString; arg_y := None; arg_out := default_out;
     arg_test := false |}.

(** "The error message identifies which name(s) were missing": the
    missing names can be read off the message. *)
Definition message_identifies_missing : Prop :=
  ∃ decode : string → list string,
    ∀ (df : DataFrame) (x y : string) (w : World) (msg : string),
      (scatter_figure df x y w).2 = Raise (KeyError msg) →
      ∀ n, n ∈ decode msg ↔ n ∈ missing_names df x y.

(** Two one-column tables. *)
Definition only_x : DataFrame := [ ("x", {| dtype := int64; values := [CInt 1] |}) ].
Definition only_q : DataFrame := [ ("q", {| dtype := int64; values := [CInt 1] |}) ].

(** [run_cli] from its second statement on, for a table already loaded. *)
Definition run_cli_on (df : DataFrame) (x y : option string) (out_path : Path)
  : M Path :=
  numeric_columns ← lift (get_numeric_columns df);
  xy ← match x, y with
       | Some x, Some y => mret (x, y)
       | _, _ => lift (unpack2 (take 2 numeric_columns))
       end;
  fig ← scatter_figure df xy.1 xy.2;
  mkdir_parents (parent out_path);;
  savefig fig out_path 144;;
  plt_close fig;;
  mret out_path.

(** The last five statements of [run_cli], for the two chosen names. *)
Definition render_and_save (df : DataFrame) (a b : string) (out_path : Path)
  : M Path :=
  fig ← scatter_figure df a b;
  mkdir_parents (parent out_path);;
  savefig fig out_path 144;;
  plt_close fig;;
  mret out_path.

(** The choice of the two names in [run_cli]. *)
Definition chosen_axes (x y : option string) (numeric_columns : list string)
  : result (string * string) :=
  match x, y with
  | Some x, Some y => Ok (x, y)
  | _, _ => unpack2 (take 2 numeric_columns)
  end.

(** The message Python gives when one value is unpacked into two names. *)
Definition unpack_one_msg : string :=
  "not enough values to unpack (expected 2, got 1)".

(** An action that leaves the Streamlit page alone, and one that at most
    adds calls to it. *)
Definition keeps_page {A} (m : M A) : Prop := ∀ w, page (m w).1 = page w.
Definition page_grows {A} (m : M A) : Prop :=
  ∀ w, page w `prefix_of` page (m w).1.

(** The condition under which [main] takes the headless branch when
    Streamlit is there. *)
Definition headless_wanted (args : Namespace) : bool :=
  (bool_decide (is_Some (arg_csv args))
   || Py.truthy_str (arg_x args) || Py.truthy_str (arg_y args))
  || negb (bool_decide (arg_out args = default_out)).

Definition cli_notice : string :=
  "streamlit not installed; running in CLI mode. To use UI, install with `pip install streamlit`."
  ++ newline.

(** The one-numeric-column file put in the uploader. *)
Definition one_numeric_session : Session :=
  {| uploaded_file := Some (Csv (Ok one_numeric_df)); use_sample_clicked := false;
     x_choice := 0; y_choice := 0 |}.




(** ** Vocabulary for the front ends *)

(** The number [plt.subplots] gives the next figure. *)
Definition next_fig (w : World) : nat := S (set_fold Nat.max O (open_figs w)).

(** The figure [scatter_figure] builds under number [num]. *)
Definition rendered (num : nat) (df : DataFrame) (a b : string) : Figure :=
  tight_layout (set_title ("Scatter: " ++ a ++ " vs " ++ b)
                  (sns_scatterplot a b df (blank_figure num))).

(** The table an interactive run works on: the parsed upload, or the
    sample once its button is pressed. *)
Definition session_table (ui : Session) : option DataFrame :=
  match uploaded_file ui with
  | Some (Csv (Ok df)) => Some df
  | Some _ => None
  | None => if use_sample_clicked ui then Some _sample_df else None
  end.

(** The two names the select boxes of [run_streamlit_app] hand back. *)
Definition st_x_axis (numeric_columns : list string) (ui : Session) : string :=
  selectbox numeric_columns (x_choice ui).

Definition st_y_axis (numeric_columns : list string) (ui : Session) : string :=
  let x_axis := st_x_axis numeric_columns ui in
  let others := filter (fun c => c ≠ x_axis) numeric_columns in
  selectbox (match others with [] => numeric_columns | _ => others end) (y_choice ui).

(** The download button of [run_streamlit_app] for a figure. *)
Definition download_button (fig : Figure) (x_axis y_axis : string) : StCall :=
  StDownloadButton "Download plot as PNG" (Png 144 fig)
    ("scatter_" ++ x_axis ++ "_vs_" ++ y_axis ++ ".png") "image/png".

(** Example sessions: a table without numeric columns in the uploader,
    and the sample button pressed. *)
Definition text_only_df : DataFrame :=
  [ ("name", {| dtype := object_; values := [CStr "u"; CStr "v"] |});
    ("flag", {| dtype := bool_; values := [CBool true; CBool false] |}) ].

Definition text_only_session : Session :=
  {| uploaded_file := Some (Csv (Ok text_only_df)); use_sample_clicked := false;
     x_choice := 0; y_choice := 0 |}.

Definition sample_session : Session :=
  {| uploaded_file := None; use_sample_clicked := true; x_choice := 0; y_choice := 0 |}.

Definition broken_upload_session : Session :=
  {| uploaded_file := Some (Csv (Raise (ParserError "Error tokenizing data")));
     use_sample_clicked := false; x_choice := 0; y_choice := 0 |}.

(** [run_streamlit_app] from the preview on, for a table already
    obtained. *)
Definition st_show (df : DataFrame) (ui : Session) : M unit :=
  st (StSubheader "Data Preview");;
  st (StDataframe (df_head df));;
  match get_numeric_columns df with
  | Raise (ValueError msg) => st (StWarning msg)
  | Raise e => raise e
  | Ok numeric_columns =>
      let x_axis := selectbox numeric_columns (x_choice ui) in
      let others := filter (fun c => c ≠ x_axis) numeric_columns in
      let y_axis :=
        selectbox (match others with [] => numeric_columns | _ => others end)
                  (y_choice ui) in
      fig ← scatter_figure df x_axis y_axis;
      st (StPyplot fig);;
      let buffer := Png 144 fig in
      st (StDownloadButton "Download plot as PNG" buffer
            ("scatter_" ++ x_axis ++ "_vs_" ++ y_axis ++ ".png") "image/png")
  end.

(** The world with more calls on the page. *)
Definition add_page (l : list StCall) (w : World) : World :=
  set_page (page w ++ l) w.

(** What [run_streamlit_app] shows before it has a table. *)
Definition st_heading : list StCall :=
  [ StTitle "Sample Streamlit Dashboard";
    StCaption "Running in Streamlit mode. Upload a CSV, pick numeric columns, and download the plot." ].

Definition st_upload_hint : StCall :=
  StInfo "Upload a CSV to proceed. Or try the built-in sample below.".

Definition st_intro (ui : Session) : list StCall :=
  match uploaded_file ui with
  | None => st_heading ++ [st_upload_hint]
  | Some _ => st_heading
  end.

Definition st_preview (df : DataFrame) : list StCall :=
  [ StSubheader "Data Preview"; StDataframe (df_head df) ].

(** The output location can be written: it is a proper path, no file
    stands in place of one of its ancestor directories, and it is not
    itself a directory. *)
Definition writable (w : World) (out_path : Path) : Prop :=
  out_path ≠ []
  ∧ (∀ k d, fs_lookup (fs w) (take k (parent out_path)) ≠ Some (File d))
  ∧ fs_lookup (fs w) out_path ≠ Some Dir.

(** The PNG a headless run writes for the names [a] and [b]. *)
Definition written (w : World) (df : DataFrame) (a b : string) : Node :=
  File (Png 144 (rendered (next_fig w) df a b)).

(** A world with a directory [plots], and a file where the output
    directory should be. *)
Definition plots_dir_world : World :=
  set_fs (<[ ["plots"] := Dir ]> ∅) empty_world.

Definition broken_csv_world : World :=
  set_fs (<[ ["bad.csv"] := File (Csv (Raise (ParserError "Error tokenizing data"))) ]> ∅)
         empty_world.

Definition text_only_world : World :=
  set_fs (<[ ["t.csv"] := File (Csv (Ok text_only_df)) ]> ∅) empty_world.

(** An action that neither reads nor writes standard output: run with
    another output so far, it does the same and leaves that output. *)
Definition ignores_stdout {A} (m : M A) : Prop :=
  ∀ w o, m (set_stdout o w) = (set_stdout o (m w).1, (m w).2).

(** The line [main] prints after a headless run. *)
Definition saved_line (out : Path) : string := "Saved: " ++ path_str out.

(** [--test] and nothing else. *)
Definition test_args : Namespace :=
  {| arg_csv := None; arg_x := None; arg_y := None; arg_out := default_out;
     arg_test := true |}.

(** The directory [tempfile] hands out is usable: it is a proper path,
    its ancestors are directories, and nothing is at or below it yet. *)
Definition usable_tmp (w : World) (td : Path) : Prop :=
  td ≠ []
  ∧ (∀ k, (k < length td)%nat → fs_lookup (fs w) (take k td) = Some Dir)
  ∧ (∀ q, td `prefix_of` q → fs w !! q = None).

(** * Properties *)

(** ** The classifier *)

(** C1: on the sample table the classifier returns x, y, z in that order
    and leaves the text column cat out. *)
Theorem sample_numeric_columns :
  get_numeric_columns _sample_df = Ok ["x"; "y"; "z"].
Proof. reflexivity. Qed.

Lemma is_number_numeric (s : Series) : is_number (dtype s) = true ↔ numeric_column s.
Proof.
  unfold numeric_column.
  destruct (dtype s); simpl; split; eauto; try done; intros [?|[?|?]]; done.
Qed.

Lemma select_dtypes_number_names (df : DataFrame) :
  columns (select_dtypes_number df) = numeric_names df.
Proof.
  unfold columns, select_dtypes_number, numeric_names. f_equal.
  apply list_filter_iff. intros c. apply is_number_numeric.
Qed.

Lemma forallb_eq_true {A} (f : A → bool) (l : list A) :
  forallb f l = true ↔ Forall (fun a => f a = true) l.
Proof.
  induction l as [|a l IH]; simpl.
  - split; [constructor|done].
  - rewrite andb_true_iff, Forall_cons, IH. done.
Qed.

(** The constructor's inference ties the column type to the values: a
    column built from a list is numeric exactly when the list holds only
    integers and floats and its integers do not clash. *)
Lemma infer_dtype_number (vs : list Cell) :
  is_number (infer_dtype vs) = true
  ↔ Forall (fun c => is_int c || is_float c = true) vs
    ∧ ints_clash (omap cell_int vs) = false.
Proof.
  rewrite <- forallb_eq_true.
  destruct vs as [|v vs]; [done|].
  unfold infer_dtype. set (l := v :: vs).
  destruct (forallb is_bool l) eqn:Hb.
  - simpl. split; [done|]. intros [Hn _].
    unfold l in *. simpl in Hb, Hn. destruct v; simpl in *; done.
  - destruct (forallb (fun c => is_int c || is_float c) l) eqn:Hf;
      [|simpl; split; [done|intros [? _]; done]].
    cbv zeta. destruct (ints_clash (omap cell_int l)) eqn:Hc;
      [simpl; split; [done|intros [_ ?]; done]|].
    destruct (existsb is_float l); [done|].
    destruct (existsb _ (omap cell_int l)); done.
Qed.

(** C4: the classifier raises its "no numeric columns" error exactly when
    the table has no numeric column, raises nothing else, and otherwise
    returns the names of the numeric columns in the order of the table. *)
Theorem get_numeric_columns_spec (df : DataFrame) :
  (get_numeric_columns df
     = Raise (ValueError "No numeric columns found in the dataset.")
   ↔ ¬ ∃ c, c ∈ df ∧ numeric_column c.2)
  ∧ (∀ e, get_numeric_columns df = Raise e
          → e = ValueError "No numeric columns found in the dataset.")
  ∧ ((∃ c, c ∈ df ∧ numeric_column c.2)
     → get_numeric_columns df = Ok (numeric_names df)
       ∧ numeric_names df `sublist_of` columns df
       ∧ ∀ n, n ∈ numeric_names df ↔ ∃ s, (n, s) ∈ df ∧ numeric_column s).
Proof.
  unfold get_numeric_columns. rewrite select_dtypes_number_names.
  assert (Hmem : ∀ n, n ∈ numeric_names df ↔ ∃ s, (n, s) ∈ df ∧ numeric_column s).
  { intros n. unfold numeric_names. rewrite list_elem_of_fmap. split.
    - intros [[n' s] [-> [Hs Hin]%list_elem_of_filter]]. by exists s.
    - intros [s [Hin Hs]]. exists (n, s). split; [done|].
      by apply list_elem_of_filter. }
  assert (Hnil : numeric_names df = [] ↔ ¬ ∃ c, c ∈ df ∧ numeric_column c.2).
  { split.
    - intros Hnil [[n s] [Hin Hs]].
      assert (n ∈ numeric_names df) as Hn by (apply Hmem; eauto).
      rewrite Hnil in Hn. by apply not_elem_of_nil in Hn.
    - intros Hno. destruct (numeric_names df) as [|n l] eqn:E; [done|].
      exfalso. apply Hno.
      assert (n ∈ n :: l) as [s [? ?]]%Hmem by left.
      by exists (n, s). }
  split; [|split].
  - destruct (numeric_names df) eqn:E; [tauto|].
    split; [done|]. intros Hno. apply Hnil in Hno. done.
  - intros e. destruct (numeric_names df); congruence.
  - intros Hex. split; [|split; [|done]].
    + destruct (numeric_names df) eqn:E; [|done].
      exfalso. by apply Hnil.
    + unfold numeric_names, columns. apply fmap_sublist, sublist_filter.
Qed.

(** ** The renderer *)

Lemma scatter_figure_absent (df : DataFrame) (x y : string) (w : World) :
  x ∉ columns df ∨ y ∉ columns df →
  scatter_figure df x y w
  = (w, Raise (KeyError ("Columns not in DataFrame: x=" ++ Py.repr x
                           ++ ", y=" ++ Py.repr y))).
Proof.
  intros H. unfold scatter_figure.
  destruct H as [H|H]; rewrite (bool_decide_eq_false_2 _ H); simpl;
    [|rewrite orb_true_r]; reflexivity.
Qed.

Lemma scatter_figure_present (df : DataFrame) (x y : string) (w : World) :
  x ∈ columns df → y ∈ columns df →
  scatter_figure df x y w
  = (set_open_figs ({[S (set_fold Nat.max O (open_figs w))]} ∪ open_figs w) w,
     Ok (tight_layout (set_title ("Scatter: " ++ x ++ " vs " ++ y)
           (sns_scatterplot x y df
              (blank_figure (S (set_fold Nat.max O (open_figs w)))))))).
Proof.
  intros Hx Hy. unfold scatter_figure.
  rewrite (bool_decide_eq_true_2 _ Hx), (bool_decide_eq_true_2 _ Hy).
  reflexivity.
Qed.

Lemma missing_names_nil (df : DataFrame) (x y : string) :
  missing_names df x y = [] ↔ x ∈ columns df ∧ y ∈ columns df.
Proof.
  unfold missing_names. rewrite !filter_cons, filter_nil.
  destruct (decide (x ∉ columns df)), (decide (y ∉ columns df)); split;
    try done; try (intros [? ?]; done);
    intros _; split; by apply dec_stable.
Qed.

(** C3, as the code has it: rendering raises the column-not-found error
    exactly when one of the two names is absent from the table; it raises
    nothing else, leaves the world as it was, and the message quotes both
    requested names, x first, whichever of them was missing. *)
Theorem scatter_figure_column_not_found (df : DataFrame) (x y : string) (w : World) :
  ((∃ msg, (scatter_figure df x y w).2 = Raise (KeyError msg))
   ↔ (x ∉ columns df ∨ y ∉ columns df))
  ∧ (∀ e, (scatter_figure df x y w).2 = Raise e →
          e = KeyError ("Columns not in DataFrame: x=" ++ Py.repr x
                          ++ ", y=" ++ Py.repr y)
          ∧ (scatter_figure df x y w).1 = w).
Proof.
  destruct (decide (x ∈ columns df)) as [Hx|Hx];
    [destruct (decide (y ∈ columns df)) as [Hy|Hy]|].
  - rewrite scatter_figure_present by done. simpl. split.
    + split; [intros [? ?]; done|intros [?|?]; done].
    + intros e ?. done.
  - rewrite scatter_figure_absent by (by right). simpl. split.
    + split; [by right|eauto].
    + intros e [= <-]. done.
  - rewrite scatter_figure_absent by (by left). simpl. split.
    + split; [by left|eauto].
    + intros e [= <-]. done.
Qed.

(** C3 as written fails: asked for x and q, a table with only x and a
    table with only q raise the same message, though q is what the first
    lacks and x what the second lacks. *)
Lemma keyerror_message_ambiguous :
  (∃ msg, (scatter_figure only_x "x" "q" empty_world).2 = Raise (KeyError msg)
          ∧ (scatter_figure only_q "x" "q" empty_world).2 = Raise (KeyError msg))
  ∧ missing_names only_x "x" "q" = ["q"]
  ∧ missing_names only_q "x" "q" = ["x"]
  ∧ ¬ message_identifies_missing.
Proof.
  assert (H1 : missing_names only_x "x" "q" = ["q"]) by (by vm_compute).
  assert (H2 : missing_names only_q "x" "q" = ["x"]) by (by vm_compute).
  split; [|split; [done|split; [done|]]].
  - eexists. split; vm_compute; reflexivity.
  - intros [decode Hd].
    pose proof (Hd only_x "x" "q" empty_world _ eq_refl "q") as Ha.
    pose proof (Hd only_q "x" "q" empty_world _ eq_refl "q") as Hb.
    rewrite H1 in Ha. rewrite H2 in Hb.
    assert (Hq : "q" ∈ ["x"]) by (apply Hb, Ha; left).
    apply list_elem_of_singleton in Hq. discriminate.
Qed.












Lemma sns_scatterplot_num x y df fig :
  fig_num (sns_scatterplot x y df fig) = fig_num fig.
Proof.
  unfold sns_scatterplot. cbv zeta. destruct (negb _); [done|].
  by destruct (omap _ _).
Qed.







(** An integer column value above 2^53 does not keep its exact value as
    a coordinate: it falls on the nearest binary64. *)
Lemma to_coord_rounds :
  to_coord (CInt (2 ^ 53 + 1)) = to_coord (CInt (2 ^ 53)).
Proof. vm_compute. reflexivity. Qed.


(** ** The headless front end *)

Ltac run_M := unfold mbind, M_bind, mret, M_ret, lift, raise; simpl.

Lemma run_cli_loaded csv x y out w df :
  loaded_table csv w = Some df →
  run_cli csv x y out w = run_cli_on df x y out w.
Proof.
  unfold loaded_table, run_cli, run_cli_on. intros H.
  destruct csv as [p|]; [|by injection H as <-].
  unfold path_exists, _read_csv. run_M.
  destruct (fs_lookup (fs w) p) as [[|[[df'|]|]]|] eqn:E; try done.
  injection H as <-.
  rewrite bool_decide_eq_true_2 by eauto. simpl. rewrite E. reflexivity.
Qed.

Lemma run_cli_ok_loaded csv x y out w w' p :
  run_cli csv x y out w = (w', Ok p) → ∃ df, loaded_table csv w = Some df.
Proof.
  unfold loaded_table, run_cli. destruct csv as [q|]; [|eauto].
  unfold path_exists, _read_csv. run_M.
  destruct (fs_lookup (fs w) q) as [[|[[df'|]|]]|] eqn:E; simpl;
    [rewrite ?bool_decide_eq_true_2 by eauto ..
    |rewrite ?bool_decide_eq_false_2 by (by intros [? ?])];
    simpl; rewrite ?E; simpl; try done; eauto.
Qed.

(** C6: when the input path does not exist the headless run raises the
    not-found error at once, with the world untouched (no figure opened,
    nothing written), and the dispatcher lets that same exception
    through. *)
Theorem run_cli_input_not_found (w : World) (p : Path) :
  fs_lookup (fs w) p = None →
  (∀ x y out,
     run_cli (Some p) x y out w
     = (w, Raise (FileNotFoundError ("CSV not found: " ++ path_str p))))
  ∧ (∀ hs td ui args,
       arg_test args = false → arg_csv args = Some p →
       let r := main hs td ui args w in
       r.2 = Raise (FileNotFoundError ("CSV not found: " ++ path_str p))
       ∧ fs r.1 = fs w ∧ open_figs r.1 = open_figs w ∧ page r.1 = page w).
Proof.
  intros Hno.
  assert (Hrun : ∀ x y out,
     run_cli (Some p) x y out w
     = (w, Raise (FileNotFoundError ("CSV not found: " ++ path_str p)))).
  { intros x y out. unfold run_cli, path_exists. run_M. rewrite Hno.
    rewrite bool_decide_eq_false_2; [done|]. by intros [? ?]. }
  split; [exact Hrun|].
  intros hs td ui args Ht Hc. unfold main. rewrite Ht, Hc. run_M.
  destruct hs; simpl.
  - rewrite Hrun. done.
  - unfold print at 1. simpl.
    unfold run_cli, path_exists. run_M. rewrite Hno.
    rewrite bool_decide_eq_false_2; [done|]. by intros [? ?].
Qed.

Lemma run_cli_input_not_found_witness :
  fs_lookup (fs empty_world) ["missing.csv"] = None
  ∧ run_cli (Some ["missing.csv"]) None None default_out empty_world
    = (empty_world, Raise (FileNotFoundError "CSV not found: missing.csv")).
Proof.
  split; [reflexivity|].
  apply (run_cli_input_not_found empty_world ["missing.csv"]). reflexivity.
Defined.

(** C9: on a table with exactly one numeric column, a headless run with
    x or y unset stops at the unpacking of the first two numeric columns
    with a [ValueError] that is none of the four documented kinds; no
    figure is opened and nothing is written. *)
Theorem run_cli_single_numeric_fails csv x y out w df c :
  loaded_table csv w = Some df →
  get_numeric_columns df = Ok [c] →
  x = None ∨ y = None →
  run_cli csv x y out w = (w, Raise (ValueError unpack_one_msg))
  ∧ error_kind (ValueError unpack_one_msg) = None.
Proof.
  intros Hl Hn Hxy. split; [|reflexivity].
  rewrite (run_cli_loaded _ _ _ _ _ _ Hl). unfold run_cli_on. run_M.
  rewrite Hn. simpl.
  destruct Hxy as [-> | ->]; [|destruct x]; reflexivity.
Qed.

Lemma run_cli_single_numeric_fails_witness :
  loaded_table (Some ["d.csv"]) one_numeric_world = Some one_numeric_df
  ∧ get_numeric_columns one_numeric_df = Ok ["a"]
  ∧ run_cli (Some ["d.csv"]) (Some "a") None default_out one_numeric_world
    = (one_numeric_world, Raise (ValueError unpack_one_msg)).
Proof.
  split; [reflexivity|split; [reflexivity|]].
  apply (run_cli_single_numeric_fails (Some ["d.csv"]) (Some "a") None default_out
           one_numeric_world one_numeric_df "a");
    [reflexivity | reflexivity | right; reflexivity].
Defined.

(** With two or more numeric columns an unset axis makes the run use the
    first two of them, whatever was given for the other axis. *)
Lemma run_cli_defaults_first_two csv x y out w df a b rest :
  loaded_table csv w = Some df →
  get_numeric_columns df = Ok (a :: b :: rest) →
  x = None ∨ y = None →
  run_cli csv x y out w = run_cli csv (Some a) (Some b) out w.
Proof.
  intros Hl Hn Hxy. rewrite !(run_cli_loaded _ _ _ _ _ _ Hl).
  unfold run_cli_on. run_M. rewrite Hn. simpl.
  destruct Hxy as [-> | ->]; [|destruct x]; reflexivity.
Qed.

(** C2 at a table with one numeric column: the run does not fall back on
    that column for both axes, it raises. *)
Theorem run_cli_one_numeric_column_raises :
  run_cli (Some ["d.csv"]) None None default_out one_numeric_world
  = (one_numeric_world, Raise (ValueError unpack_one_msg)).
Proof. vm_compute. reflexivity. Qed.

Lemma run_cli_on_steps df x y out w :
  run_cli_on df x y out w
  = match get_numeric_columns df with
    | Ok cols =>
        match chosen_axes x y cols with
        | Ok xy => render_and_save df xy.1 xy.2 out w
        | Raise e => (w, Raise e)
        end
    | Raise e => (w, Raise e)
    end.
Proof.
  unfold run_cli_on, render_and_save, chosen_axes. run_M.
  destruct (get_numeric_columns df) as [cols|e]; [|done].
  destruct x as [x|]; [destruct y as [y|]|]; simpl; try done;
    destruct (unpack2 (take 2 cols)); done.
Qed.

(** pyplot's next figure number is not in use. *)
Lemma next_figure_fresh (X : gset nat) : S (set_fold Nat.max O X) ∉ X.
Proof.
  assert (H : ∀ x, x ∈ X → (x ≤ set_fold Nat.max O X)%nat).
  { apply (set_fold_ind_L (fun r (Y : gset nat) => ∀ x, x ∈ Y → (x ≤ r)%nat)).
    - intros x Hx. by apply not_elem_of_empty in Hx.
    - intros x Y r _ IH z [->%elem_of_singleton|Hz]%elem_of_union; [lia|].
      specialize (IH z Hz). lia. }
  intros Hin. specialize (H _ Hin). lia.
Qed.

Lemma mkdir_walk_ok target todo : ∀ walked f f',
  mkdir_walk target walked todo f = Ok f' →
  (∀ k, (0 < k ≤ length todo)%nat → f' !! (walked ++ take k todo)%list = Some Dir)
  ∧ (∀ q n, f !! q = Some n → f' !! q = Some n).
Proof.
  induction todo as [|c todo IH]; intros walked f f'; simpl.
  - intros [= <-]. split; [intros k ?; lia|done].
  - destruct (f !! (walked ++ [c])%list) as [[|d]|] eqn:E.
    + intros [Ha Hb]%IH. split; [|done].
      intros [|k] Hk; [lia|]. simpl.
      destruct k as [|k].
      * rewrite take_0. by apply Hb.
      * rewrite cons_middle, (assoc_L (++) walked [c]). apply Ha. lia.
    + destruct todo; done.
    + intros [Ha Hb]%IH. split.
      * intros [|k] Hk; [lia|]. simpl.
        destruct k as [|k].
        -- rewrite take_0. apply Hb. by rewrite lookup_insert_eq.
        -- rewrite cons_middle, (assoc_L (++) walked [c]). apply Ha. lia.
      * intros q n Hq. apply Hb. rewrite lookup_insert_ne; [done|].
        intros <-. congruence.
Qed.

Lemma mkdir_walk_ancestors p f f' :
  mkdir_walk p [] p f = Ok f' → ∀ k, fs_lookup f' (take k p) = Some Dir.
Proof.
  intros [Ha _]%mkdir_walk_ok k.
  destruct (take k p) as [|c q] eqn:E; [done|].
  rewrite <- E. unfold fs_lookup. rewrite E, <- E.
  assert (Hk : take k p = take (k `min` length p) p).
  { destruct (decide (k ≤ length p)%nat).
    - by rewrite Nat.min_l.
    - rewrite Nat.min_r, !take_ge by lia. done. }
  rewrite Hk. apply (Ha (k `min` length p)%nat).
  assert (k ≠ O) by (intros ->; done).
  assert (p ≠ []) by (intros ->; by destruct k).
  destruct p; [done|]. simpl. lia.
Qed.

Lemma length_parent (p : Path) : p ≠ [] → S (length (parent p)) = length p.
Proof.
  unfold parent. induction p as [|c p IH]; [done|]. intros _.
  destruct p as [|c' p]; [done|].
  change (removelast (c :: c' :: p)) with (c :: removelast (c' :: p)).
  simpl length. f_equal. apply IH. done.
Qed.

(** Closing the figure just opened restores the registry. *)
Lemma close_after_open (X : gset nat) (n : nat) :
  n ∉ X → ({[n]} ∪ X) ∖ {[n]} = X.
Proof.
  intros Hn. apply set_eq. intros m.
  rewrite elem_of_difference, elem_of_union, elem_of_singleton.
  split; [intros [[?|?] ?]; done|].
  intros Hm. split; [by right|]. intros ->. done.
Qed.

(** C7: a headless run that returns has returned [out_path]; every
    ancestor directory of [out_path] was created where missing, nothing
    that existed was lost, then the rendered figure was written at
    [out_path] as a PNG at 144 DPI, and after that the figure was closed,
    so pyplot's registry is as before the run. *)
Theorem run_cli_success csv x y out w w' p :
  run_cli csv x y out w = (w', Ok p) →
  p = out
  ∧ ∃ df cols a b fig dirs,
      loaded_table csv w = Some df
      ∧ get_numeric_columns df = Ok cols
      ∧ chosen_axes x y cols = Ok (a, b)
      ∧ (scatter_figure df a b w).2 = Ok fig
      ∧ mkdir_walk (parent out) [] (parent out) (fs w) = Ok dirs
      ∧ (∀ q n, fs w !! q = Some n → dirs !! q = Some n)
      ∧ fs w' = <[out := File (Png 144 fig)]> dirs
      ∧ (∀ k, fs_lookup (fs w') (take k (parent out)) = Some Dir)
      ∧ fs_lookup (fs w') out = Some (File (Png 144 fig))
      ∧ open_figs w' = open_figs w
      ∧ (fig_num fig ∉ open_figs w')
      ∧ stdout w' = stdout w ∧ page w' = page w.
Proof.
  intros H. destruct (run_cli_ok_loaded _ _ _ _ _ _ _ H) as [df Hl].
  rewrite (run_cli_loaded _ _ _ _ _ _ Hl), run_cli_on_steps in H.
  destruct (get_numeric_columns df) as [cols|] eqn:Hn; [|done].
  destruct (chosen_axes x y cols) as [[a b]|] eqn:Hc; [|done].
  unfold render_and_save, mbind, M_bind in H. cbn [fst snd] in H.
  remember (parent out) as par eqn:Epar.
  destruct (decide (a ∈ columns df)) as [Ha|Ha];
    [|rewrite scatter_figure_absent in H by (by left); simpl in H; done].
  destruct (decide (b ∈ columns df)) as [Hb|Hb];
    [|rewrite scatter_figure_absent in H by (by right); simpl in H; done].
  pose proof (scatter_figure_present df a b w Ha Hb) as Hfig.
  rewrite Hfig in H. unfold mkdir_parents in H. simpl in H.
  destruct (mkdir_walk par [] par (fs w)) as [dirs|] eqn:Hm; simpl in H; [|done].
  pose proof (mkdir_walk_ancestors _ _ _ Hm) as Hanc.
  apply mkdir_walk_ok in Hm as Hkeep. destruct Hkeep as [_ Hkeep].
  unfold savefig in H. rewrite <- Epar in H. simpl in H.
  destruct (decide (out = [])) as [->|Hout]; [done|].
  assert (Hne : ∀ k, take k par ≠ out).
  { intros k Hk. pose proof (length_parent out Hout) as Hlen.
    apply (f_equal length) in Hk. rewrite length_take, Epar in Hk. lia. }
  pose proof (Hanc (length par)) as Hpar. rewrite take_ge in Hpar by lia.
  assert (Hfresh := next_figure_fresh (open_figs w)).
  assert (Hlook : ∀ f : gmap Path Node, fs_lookup f out = f !! out)
    by (by destruct out).
  destruct (fs_lookup dirs out) as [[|d]|] eqn:Eo; simpl in H; [done|..];
    rewrite Hpar in H; simpl in H; injection H as <- <-;
    (split; [done|]);
    eexists df, cols, a, b, _, dirs; rewrite Hfig; simpl;
    (split; [done|split; [done|split; [done|]]]);
    (split; [reflexivity|split; [done|split; [done|split; [done|]]]]).
  all: split; [intros k; specialize (Hanc k); specialize (Hne k);
               destruct (take k par) eqn:Et; [done|];
               unfold fs_lookup in *; by rewrite lookup_insert_ne|].
  all: split; [rewrite Hlook; by rewrite lookup_insert_eq|].
  all: simpl; rewrite !sns_scatterplot_num; simpl; rewrite close_after_open by done; done.
Qed.

Lemma run_cli_success_witness :
  let r := run_cli None None None ["out"; "plot.png"] empty_world in
  r.2 = Ok ["out"; "plot.png"]
  ∧ fs_lookup (fs r.1) ["out"] = Some Dir
  ∧ (∃ fig, fs_lookup (fs r.1) ["out"; "plot.png"] = Some (File (Png 144 fig)))
  ∧ open_figs r.1 = ∅.
Proof.
  set (out := ["out"; "plot.png"]).
  set (r := run_cli None None None out empty_world). simpl.
  assert (Hrun : run_cli None None None out empty_world = (r.1, Ok out))
    by (vm_compute; reflexivity).
  destruct (run_cli_success None None None out empty_world r.1 out Hrun)
    as (_ & df & cols & a & b & fig & dirs & _ & _ & _ & _ & _ & _ & _
        & Hdirs & Hfile & Hfigs & _).
  split; [vm_compute; reflexivity|].
  split; [exact (Hdirs 1%nat)|].
  split; [exists fig; exact Hfile|exact Hfigs].
Defined.

(** ** The dispatcher *)

Section Page.
Context {A B : Type}.

Lemma keeps_page_bind (m : M A) (f : A → M B) :
  keeps_page m → (∀ a, keeps_page (f a)) → keeps_page (m ≫= f).
Proof.
  intros Hm Hf w. unfold mbind, M_bind. specialize (Hm w).
  destruct (m w) as [w1 [a|e]]; simpl in *; [|done].
  by rewrite Hf.
Qed.

Lemma page_grows_bind (m : M A) (f : A → M B) :
  page_grows m → (∀ a, page_grows (f a)) → page_grows (m ≫= f).
Proof.
  intros Hm Hf w. unfold mbind, M_bind. specialize (Hm w).
  destruct (m w) as [w1 [a|e]]; simpl in *; [|done].
  etrans; [exact Hm|apply Hf].
Qed.

Lemma keeps_page_grows (m : M A) : keeps_page m → page_grows m.
Proof. intros Hm w. by rewrite Hm. Qed.

Lemma keeps_page_pure (r : result A) : keeps_page (fun w => (w, r)).
Proof. done. Qed.
End Page.

Lemma keeps_page_ret {A} (a : A) : keeps_page (mret a).
Proof. done. Qed.
Lemma keeps_page_raise {A} (e : Exn) : keeps_page (@raise A e).
Proof. done. Qed.
Lemma keeps_page_lift {A} (r : result A) : keeps_page (lift r).
Proof. done. Qed.
Lemma keeps_page_print (s : string) : keeps_page (print s).
Proof. done. Qed.
Lemma keeps_page_path_exists (p : Path) : keeps_page (path_exists p).
Proof. done. Qed.
Lemma keeps_page_read_csv (p : Path) : keeps_page (_read_csv p).
Proof. intros w. unfold _read_csv. by repeat case_match. Qed.
Lemma keeps_page_subplots : keeps_page plt_subplots.
Proof. done. Qed.
Lemma keeps_page_close (fig : Figure) : keeps_page (plt_close fig).
Proof. done. Qed.
Lemma keeps_page_mkdir (p : Path) : keeps_page (mkdir_parents p).
Proof. intros w. unfold mkdir_parents. by case_match. Qed.
Lemma keeps_page_savefig (fig : Figure) (p : Path) (dpi : Z) :
  keeps_page (savefig fig p dpi).
Proof. intros w. unfold savefig. by repeat case_match. Qed.

Create HintDb page discriminated.
#[local] Hint Resolve keeps_page_ret keeps_page_raise keeps_page_lift
  keeps_page_print keeps_page_path_exists keeps_page_read_csv
  keeps_page_subplots keeps_page_close keeps_page_mkdir keeps_page_savefig
  : page.

Ltac page_step :=
  first
    [ apply keeps_page_bind; [|intros ?]
    | apply page_grows_bind; [|intros ?]
    | match goal with
      | |- keeps_page (match ?x with _ => _ end) => destruct x
      | |- page_grows (match ?x with _ => _ end) => destruct x
      end
    | solve [auto with page] ].

Lemma keeps_page_scatter_figure df x y : keeps_page (scatter_figure df x y).
Proof. unfold scatter_figure. repeat page_step. Qed.
#[local] Hint Resolve keeps_page_scatter_figure : page.

Lemma keeps_page_run_cli csv x y out : keeps_page (run_cli csv x y out).
Proof. unfold run_cli. repeat page_step. Qed.
#[local] Hint Resolve keeps_page_run_cli : page.

Lemma keeps_page_headless_action args : keeps_page (headless_action args).
Proof. unfold headless_action. repeat page_step. Qed.

Lemma page_grows_st (c : StCall) : page_grows (st c).
Proof. intros w. simpl. by apply prefix_app_r. Qed.
#[local] Hint Resolve page_grows_st keeps_page_grows : page.

(** The interactive front end always writes on the page, its title first. *)
Lemma run_streamlit_app_page ui w :
  (page w ++ [StTitle "Sample Streamlit Dashboard"])%list
    `prefix_of` page (run_streamlit_app true ui w).1.
Proof.
  unfold run_streamlit_app.
  set (title := StTitle "Sample Streamlit Dashboard").
  change (if true then mret () else raise AssertionError) with (@mret M _ _ ()).
  match goal with
  | |- context [st title ≫= ?k] =>
      assert (Hk : page_grows (k ())) by repeat page_step;
      specialize (Hk (st title w).1)
  end.
  exact Hk.
Qed.

Lemma headless_wanted_iff args :
  headless_wanted args = true ↔ given_non_empty args.
Proof.
  unfold headless_wanted, given_non_empty, Py.truthy_str.
  rewrite !orb_true_iff, negb_true_iff, bool_decide_eq_true, bool_decide_eq_false.
  destruct (arg_csv args) as [p|], (arg_x args) as [x|], (arg_y args) as [y|];
    rewrite ?negb_true_iff, ?String.eqb_neq; split;
    try (intros [[[Hc|Hx]|Hy]|Ho]);
    try (intros [Hc|[(s & Hs & Hne)|[(s & Hs & Hne)|Ho]]]);
    simplify_eq; eauto 8;
    try (by destruct Hc); try done.
Qed.

Lemma main_without_test hs td ui args w :
  arg_test args = false →
  main hs td ui args w
  = if hs
    then if headless_wanted args then headless_action args w
         else run_streamlit_app true ui w
    else (print cli_notice;; headless_action args) w.
Proof.
  intros Ht. unfold main. rewrite Ht.
  fold (headless_wanted args). fold (headless_action args). fold cli_notice.
  destruct hs; [destruct (headless_wanted args)|]; reflexivity.
Qed.

Lemma headless_not_interactive args ui w :
  headless_action args w ≠ run_streamlit_app true ui w.
Proof.
  intros H. pose proof (run_streamlit_app_page ui w) as Hp.
  rewrite <- H, keeps_page_headless_action in Hp.
  apply prefix_length in Hp. rewrite length_app in Hp. simpl in Hp. lia.
Qed.

(** What the dispatcher does: with Streamlit there, and no [--test], the
    dispatcher runs the headless variant and then prints the path it
    returned exactly when [--csv] was given, or [--x] or [--y] was given
    a non-empty value, or [--out] is not plot.png; otherwise it runs the
    interactive variant.  Without Streamlit it prints a notice and always
    does the former. *)
Theorem main_dispatch td ui args w :
  arg_test args = false →
  (main true td ui args w = headless_action args w ↔ given_non_empty args)
  ∧ (¬ given_non_empty args →
     main true td ui args w = run_streamlit_app true ui w)
  ∧ main false td ui args w = (print cli_notice;; headless_action args) w
  ∧ (∀ w' out,
       run_cli (arg_csv args) (arg_x args) (arg_y args) (arg_out args) w
       = (w', Ok out) →
       headless_action args w
       = (set_stdout (stdout w' ++ ["Saved: " ++ path_str out]) w', Ok ())).
Proof.
  intros Ht. rewrite !main_without_test by done.
  rewrite <- headless_wanted_iff.
  split; [|split; [|split; [done|]]].
  - destruct (headless_wanted args); [done|]. split; [|done].
    intros H. symmetry in H. by apply headless_not_interactive in H.
  - intros H. by destruct (headless_wanted args).
  - intros w' out H. unfold headless_action, mbind, M_bind. by rewrite H.
Qed.

Lemma main_dispatch_witness :
  arg_test no_args = false
  ∧ ¬ given_non_empty no_args
  ∧ main true ["tmp"] idle_session no_args empty_world
    = run_streamlit_app true idle_session empty_world
  ∧ main false ["tmp"] idle_session no_args empty_world
    = (print cli_notice;; headless_action no_args) empty_world.
Proof.
  assert (Hno : ¬ given_non_empty no_args).
  { intros H. apply headless_wanted_iff in H. vm_compute in H. discriminate. }
  destruct (main_dispatch ["tmp"] idle_session no_args empty_world eq_refl)
    as (_ & Hinter & Hcli & _).
  split; [reflexivity|split; [exact Hno|split; [exact (Hinter Hno)|exact Hcli]]].
Defined.

(** C5 at an empty [--x]: the flag is given, with a value other than its
    default, yet with Streamlit there the dispatcher runs the interactive
    variant and not the headless one, which would have taken the flag as
    given ([run_cli] tests its arguments against [None]). *)
Lemma dispatch_empty_x_is_interactive :
  given_non_default empty_x_args
  ∧ main true ["tmp"] idle_session empty_x_args empty_world
    = run_streamlit_app true idle_session empty_world
  ∧ main true ["tmp"] idle_session empty_x_args empty_world
    ≠ headless_action empty_x_args empty_world.
Proof.
  split; [right; left; done|].
  assert (H : main true ["tmp"] idle_session empty_x_args empty_world
              = run_streamlit_app true idle_session empty_world)
    by (vm_compute; reflexivity).
  split; [exact H|].
  rewrite H. intros Heq. symmetry in Heq.
  by apply headless_not_interactive in Heq.
Qed.

(** C10: the dispatcher tests truthiness.  With Streamlit there, no
    [--csv], [--out] at its default, and [--x] and [--y] each absent or
    empty, the interactive variant runs, also when an empty [--x] or
    [--y] was put on the command line. *)
Theorem main_falsy_args_interactive td ui args w :
  arg_test args = false →
  arg_csv args = None →
  Py.truthy_str (arg_x args) = false →
  Py.truthy_str (arg_y args) = false →
  arg_out args = default_out →
  main true td ui args w = run_streamlit_app true ui w.
Proof.
  intros Ht Hc Hx Hy Ho. rewrite main_without_test by done.
  unfold headless_wanted. rewrite Hc, Hx, Hy, Ho. reflexivity.
Qed.

Lemma main_falsy_args_interactive_witness :
  arg_x empty_x_args = Some EmptyString
  ∧ main true ["tmp"] idle_session empty_x_args empty_world
    = run_streamlit_app true idle_session empty_world.
Proof.
  split; [reflexivity|].
  apply (main_falsy_args_interactive ["tmp"] idle_session empty_x_args empty_world);
    reflexivity.
Defined.

(** The interactive front end, given the same one-numeric-column table,
    plots that column against itself. *)
Lemma streamlit_one_numeric_column_plots :
  ∃ fig, StPyplot fig ∈ page (run_streamlit_app true one_numeric_session empty_world).1
         ∧ fig_xlabel fig = "a" ∧ fig_ylabel fig = "a".
Proof.
  eexists. split; [|split].
  - vm_compute. do 4 right. left.
  - reflexivity.
  - reflexivity.
Qed.

(** * Further properties *)

(** ** Classifier and renderer together *)

Lemma numeric_columns_present df cols :
  get_numeric_columns df = Ok cols → cols ≠ [] ∧ ∀ n, n ∈ cols → n ∈ columns df.
Proof.
  unfold get_numeric_columns.
  destruct (columns (select_dtypes_number df)) as [|c l] eqn:E; [done|].
  intros [= <-]. split; [done|]. intros n Hn. rewrite <- E in Hn.
  unfold columns, select_dtypes_number in *.
  apply list_elem_of_fmap in Hn as [c' [-> [_ Hin]%list_elem_of_filter]].
  by apply list_elem_of_fmap_2.
Qed.

(** X1: every name the classifier returns is a column the renderer
    accepts: rendering any two of them never raises the column-not-found
    error, it returns a figure under pyplot's next number, titled with
    the two names. *)
Theorem numeric_columns_render df cols a b w :
  get_numeric_columns df = Ok cols → a ∈ cols → b ∈ cols →
  ∃ fig,
    scatter_figure df a b w
    = (set_open_figs ({[next_fig w]} ∪ open_figs w) w, Ok fig)
    ∧ fig = rendered (next_fig w) df a b
    ∧ fig_num fig = next_fig w
    ∧ fig_title fig = "Scatter: " ++ a ++ " vs " ++ b.
Proof.
  intros [_ Hin]%numeric_columns_present Ha Hb.
  exists (rendered (next_fig w) df a b).
  split; [apply scatter_figure_present; by apply Hin|].
  split; [done|]. split; [|done].
  unfold rendered. simpl. apply sns_scatterplot_num.
Qed.

Lemma numeric_columns_render_witness :
  get_numeric_columns _sample_df = Ok ["x"; "y"; "z"]
  ∧ ∃ fig, (scatter_figure _sample_df "z" "x" empty_world).2 = Ok fig
           ∧ fig_num fig = 1%nat
           ∧ fig_title fig = "Scatter: z vs x".
Proof.
  split; [reflexivity|].
  destruct (numeric_columns_render _sample_df ["x"; "y"; "z"] "z" "x" empty_world)
    as (fig & Hrun & _ & Hnum & Htitle); [reflexivity | compute_done | compute_done |].
  exists fig. rewrite Hrun. split; [reflexivity|]. split; [exact Hnum|exact Htitle].
Defined.

(** ** The interactive front end *)

Lemma selectbox_in options choice :
  options ≠ [] → selectbox options choice ∈ options.
Proof.
  unfold selectbox. intros Hne.
  destruct (options !! choice) as [c|] eqn:E; simpl.
  - by eapply list_elem_of_lookup_2.
  - destruct options; [done|]. left.
Qed.

(** X2: the two select boxes always hand back numeric columns of the
    table; Y differs from X whenever some other numeric column exists,
    and falls back on X itself only when X is the one numeric column. *)
Theorem st_axes_choice cols ui :
  cols ≠ [] →
  st_x_axis cols ui ∈ cols
  ∧ st_y_axis cols ui ∈ cols
  ∧ ((∃ c, c ∈ cols ∧ c ≠ st_x_axis cols ui) → st_y_axis cols ui ≠ st_x_axis cols ui)
  ∧ ((∀ c, c ∈ cols → c = st_x_axis cols ui) → st_y_axis cols ui = st_x_axis cols ui).
Proof.
  intros Hne. pose proof (selectbox_in cols (x_choice ui) Hne) as Hx.
  unfold st_y_axis. fold (st_x_axis cols ui) in Hx.
  set (x_axis := st_x_axis cols ui) in *.
  set (others := filter (fun c => c ≠ x_axis) cols).
  assert (Hy : selectbox (match others with [] => cols | _ => others end) (y_choice ui)
               ∈ match others with [] => cols | _ => others end).
  { apply selectbox_in. by destruct others. }
  split; [done|]. simpl. destruct others as [|o others'] eqn:Eo.
  - split; [done|]. split.
    + intros [c [Hc Hcx]]. exfalso.
      assert (c ∈ filter (fun c => c ≠ x_axis) cols) as Hf
        by (by apply list_elem_of_filter).
      fold others in Hf. rewrite Eo in Hf. by apply elem_of_nil in Hf.
    + intros Hall. by apply Hall.
  - rewrite <- Eo in *. clear Eo. unfold others in Hy.
    apply list_elem_of_filter in Hy as [Hyx Hyc].
    split; [done|]. split; [done|]. intros Hall. exfalso. by apply Hyx, Hall.
Qed.

Lemma st_axes_choice_witness :
  ["a"] ≠ [] ∧ st_x_axis ["a"] idle_session = "a" ∧ st_y_axis ["a"] idle_session = "a".
Proof.
  destruct (st_axes_choice ["a"] idle_session ltac:(done)) as (Hx & Hy & _ & _).
  apply list_elem_of_singleton in Hx. apply list_elem_of_singleton in Hy.
  split; [done|split; [exact Hx|exact Hy]].
Defined.

Lemma add_page_add_page l1 l2 w :
  add_page l2 (add_page l1 w) = add_page (l1 ++ l2) w.
Proof. unfold add_page, set_page. simpl. by rewrite (assoc_L (++)). Qed.

Lemma st_add_page c w : st c w = (add_page [c] w, Ok ()).
Proof. reflexivity. Qed.

Lemma run_streamlit_app_steps ui w :
  run_streamlit_app true ui w
  = match uploaded_file ui with
    | None =>
        if use_sample_clicked ui
        then st_show _sample_df ui (add_page (st_heading ++ [st_upload_hint]) w)
        else (add_page (st_heading ++ [st_upload_hint]) w, Ok ())
    | Some f =>
        match pd_read_csv f with
        | Ok df => st_show df ui (add_page st_heading w)
        | Raise e => (add_page st_heading w, Raise e)
        end
    end.
Proof.
  assert (H2 : add_page st_heading w
               = (st (StCaption "Running in Streamlit mode. Upload a CSV, pick numeric columns, and download the plot.")
                    (st (StTitle "Sample Streamlit Dashboard") w).1).1).
  { rewrite !st_add_page. simpl. by rewrite add_page_add_page. }
  assert (H3 : add_page (st_heading ++ [st_upload_hint]) w
               = (st st_upload_hint (add_page st_heading w)).1).
  { rewrite st_add_page. simpl. by rewrite add_page_add_page. }
  rewrite H3, H2. unfold run_streamlit_app, st_show.
  destruct (uploaded_file ui) as [f|].
  - unfold mbind, M_bind, mret, M_ret, lift. cbn [fst snd st].
    destruct (pd_read_csv f); reflexivity.
  - destruct (use_sample_clicked ui); reflexivity.
Qed.

Lemma st_show_no_numeric df ui w :
  numeric_names df = [] →
  st_show df ui w
  = (add_page (st_preview df ++ [StWarning "No numeric columns found in the dataset."]) w,
     Ok ()).
Proof.
  intros Hn. unfold st_show, get_numeric_columns.
  rewrite select_dtypes_number_names, Hn.
  unfold mbind, M_bind. rewrite !st_add_page. cbn [fst snd].
  rewrite ?st_add_page, !add_page_add_page. reflexivity.
Qed.

Lemma st_y_axis_in cols ui : cols ≠ [] → st_y_axis cols ui ∈ cols.
Proof.
  intros Hne. unfold st_y_axis. cbv zeta.
  destruct (filter (fun c => c ≠ st_x_axis cols ui) cols) as [|o l] eqn:Eo.
  - by apply selectbox_in.
  - assert (Hsel : selectbox (o :: l) (y_choice ui) ∈ o :: l)
      by (by apply selectbox_in).
    rewrite <- Eo in Hsel at 2.
    by apply list_elem_of_filter in Hsel as [_ ?].
Qed.

Lemma st_show_numeric df cols ui w :
  get_numeric_columns df = Ok cols →
  st_show df ui w
  = (let x_axis := st_x_axis cols ui in
     let y_axis := st_y_axis cols ui in
     let fig := rendered (next_fig w) df x_axis y_axis in
     (set_open_figs ({[next_fig w]} ∪ open_figs w)
        (add_page (st_preview df ++ [StPyplot fig; download_button fig x_axis y_axis]) w),
      Ok ())).
Proof.
  intros Hn. pose proof (numeric_columns_present _ _ Hn) as [Hne Hin].
  assert (Hx : st_x_axis cols ui ∈ columns df).
  { apply Hin, selectbox_in, Hne. }
  assert (Hy : st_y_axis cols ui ∈ columns df).
  { apply Hin, st_y_axis_in, Hne. }
  unfold st_show. rewrite Hn.
  fold (st_x_axis cols ui). fold (st_y_axis cols ui).
  unfold mbind, M_bind. rewrite !st_add_page. cbn [fst snd].
  rewrite (scatter_figure_present _ _ _ _ Hx Hy).
  rewrite !st_add_page. unfold add_page, set_page, set_open_figs, st_preview,
    download_button, rendered, next_fig.
  destruct w. simpl. rewrite <- !(assoc_L (++)). reflexivity.
Qed.

Lemma run_streamlit_app_table ui df w :
  session_table ui = Some df →
  run_streamlit_app true ui w = st_show df ui (add_page (st_intro ui) w).
Proof.
  intros Ht. rewrite run_streamlit_app_steps. unfold session_table, st_intro in *.
  destruct (uploaded_file ui) as [[[df'|e]|dpi fig]|]; simplify_eq/=; [done|].
  destruct (use_sample_clicked ui); by simplify_eq.
Qed.

(** X3: until a file is uploaded or the sample button is pressed, the
    interactive run shows its title, caption and the upload hint and
    returns; it opens no figure and touches no file. *)
Theorem streamlit_waits_for_data ui w :
  uploaded_file ui = None → use_sample_clicked ui = false →
  run_streamlit_app true ui w = (add_page (st_heading ++ [st_upload_hint]) w, Ok ()).
Proof. intros Hu Hb. rewrite run_streamlit_app_steps, Hu, Hb. reflexivity. Qed.

Lemma streamlit_waits_for_data_witness :
  run_streamlit_app true idle_session empty_world
  = (add_page (st_heading ++ [st_upload_hint]) empty_world, Ok ()).
Proof.
  apply (streamlit_waits_for_data idle_session empty_world); reflexivity.
Defined.

(** X4: on a table without numeric columns the interactive run does not
    raise: after the preview it shows the classifier's message as a
    warning and returns, with no figure opened. *)
Theorem streamlit_no_numeric_warns ui df w :
  session_table ui = Some df → numeric_names df = [] →
  run_streamlit_app true ui w
  = (add_page (st_intro ui ++ st_preview df
                 ++ [StWarning "No numeric columns found in the dataset."]) w,
     Ok ()).
Proof.
  intros Ht Hn. rewrite (run_streamlit_app_table _ _ _ Ht).
  rewrite (st_show_no_numeric _ _ _ Hn), add_page_add_page. reflexivity.
Qed.

Lemma streamlit_no_numeric_warns_witness :
  session_table text_only_session = Some text_only_df
  ∧ numeric_names text_only_df = []
  ∧ (run_streamlit_app true text_only_session empty_world).2 = Ok ().
Proof.
  split; [reflexivity|split; [reflexivity|]].
  rewrite (streamlit_no_numeric_warns text_only_session text_only_df empty_world);
    reflexivity.
Defined.

(** X5: on a table with a numeric column the interactive run never
    raises, whatever the select boxes hold: it shows the preview, the
    figure for the two chosen names and a download button carrying that
    same figure as a PNG at 144 DPI under the name
    scatter_X_vs_Y.png.  It writes no file and, unlike the headless run,
    leaves the figure open in pyplot's registry. *)
Theorem streamlit_plots ui df cols w :
  session_table ui = Some df → get_numeric_columns df = Ok cols →
  let x_axis := st_x_axis cols ui in
  let y_axis := st_y_axis cols ui in
  let fig := rendered (next_fig w) df x_axis y_axis in
  run_streamlit_app true ui w
  = (set_open_figs ({[next_fig w]} ∪ open_figs w)
       (add_page (st_intro ui ++ st_preview df
                    ++ [StPyplot fig; download_button fig x_axis y_axis]) w),
     Ok ()).
Proof.
  intros Ht Hn. simpl. rewrite (run_streamlit_app_table _ _ _ Ht).
  rewrite (st_show_numeric _ _ _ _ Hn). cbv zeta.
  rewrite add_page_add_page. reflexivity.
Qed.

Lemma streamlit_plots_witness :
  session_table sample_session = Some _sample_df
  ∧ get_numeric_columns _sample_df = Ok ["x"; "y"; "z"]
  ∧ (run_streamlit_app true sample_session empty_world).2 = Ok ()
  ∧ open_figs (run_streamlit_app true sample_session empty_world).1 = {[1%nat]}.
Proof.
  split; [reflexivity|split; [reflexivity|]].
  rewrite (streamlit_plots sample_session _sample_df ["x"; "y"; "z"] empty_world
             eq_refl eq_refl).
  split; [reflexivity|]. vm_compute. reflexivity.
Defined.

(** X6: an upload that [pd.read_csv] rejects ends the interactive run
    with that very exception, after the title and caption only. *)
Theorem streamlit_upload_error f e ui w :
  uploaded_file ui = Some f → pd_read_csv f = Raise e →
  run_streamlit_app true ui w = (add_page st_heading w, Raise e).
Proof. intros Hu He. rewrite run_streamlit_app_steps, Hu, He. reflexivity. Qed.

Lemma streamlit_upload_error_witness :
  run_streamlit_app true broken_upload_session empty_world
  = (add_page st_heading empty_world, Raise (ParserError "Error tokenizing data")).
Proof.
  apply (streamlit_upload_error
           (Csv (Raise (ParserError "Error tokenizing data")))
           (ParserError "Error tokenizing data") broken_upload_session empty_world);
    reflexivity.
Defined.

(** ** The headless front end, further *)

(** [mkdir] touches only the path and its ancestors, and only to put a
    directory where there was nothing. *)
Lemma mkdir_walk_elsewhere target todo : ∀ walked f f',
  mkdir_walk target walked todo f = Ok f' →
  ∀ q, f' !! q = f !! q
       ∨ (f !! q = None ∧ f' !! q = Some Dir
          ∧ ∃ k, (0 < k ≤ length todo)%nat ∧ q = (walked ++ take k todo)%list).
Proof.
  induction todo as [|c todo IH]; intros walked f f'; simpl.
  - intros [= <-] q. by left.
  - destruct (f !! (walked ++ [c])%list) as [[|d]|] eqn:E.
    + intros Hw q. destruct (IH _ _ _ Hw q) as [?|(? & ? & k & ? & ->)]; [by left|].
      right. split; [done|split; [done|]]. exists (S k). split; [lia|].
      simpl. by rewrite <- (assoc_L (++)).
    + destruct todo; done.
    + intros Hw q. destruct (decide (q = (walked ++ [c])%list)) as [->|Hq].
      * right. split; [done|]. split.
        -- apply (mkdir_walk_ok _ _ _ _ _ Hw). by rewrite lookup_insert_eq.
        -- exists 1%nat. split; [simpl; lia|]. done.
      * destruct (IH _ _ _ Hw q) as [Heq|(Hn & Hd & k & ? & ->)].
        -- left. by rewrite Heq, lookup_insert_ne.
        -- right. rewrite lookup_insert_ne in Hn by done.
           split; [done|split; [done|]]. exists (S k). split; [lia|].
           simpl. by rewrite <- (assoc_L (++)).
Qed.

(** [mkdir] succeeds when no file stands where a directory is wanted. *)
Lemma mkdir_walk_succeeds target todo : ∀ walked f,
  (∀ k d, (0 < k ≤ length todo)%nat →
          f !! (walked ++ take k todo)%list ≠ Some (File d)) →
  ∃ f', mkdir_walk target walked todo f = Ok f'.
Proof.
  induction todo as [|c todo IH]; intros walked f Hok; simpl; [eauto|].
  assert (Hnext : ∀ g : gmap Path Node,
            (∀ q, q ≠ (walked ++ [c])%list → g !! q = f !! q) →
            ∀ k d, (0 < k ≤ length todo)%nat →
                   g !! ((walked ++ [c]) ++ take k todo)%list ≠ Some (File d)).
  { intros g Hg k d Hk. rewrite Hg.
    - rewrite <- (assoc_L (++)). apply (Hok (S k)). simpl. lia.
    - intros Heq. apply (f_equal length) in Heq.
      rewrite !length_app, length_take in Heq. simpl in Heq. lia. }
  destruct (f !! (walked ++ [c])%list) as [[|d]|] eqn:E.
  - apply IH, Hnext. done.
  - exfalso. apply (Hok 1%nat d); [simpl; lia|]. done.
  - apply IH, Hnext. intros q Hq. by rewrite lookup_insert_ne.
Qed.

(** [mkdir] changes nothing when the directories are all there. *)
Lemma mkdir_walk_idem target todo : ∀ walked f,
  (∀ k, (0 < k ≤ length todo)%nat →
        f !! (walked ++ take k todo)%list = Some Dir) →
  mkdir_walk target walked todo f = Ok f.
Proof.
  induction todo as [|c todo IH]; intros walked f Hd; simpl; [done|].
  pose proof (Hd 1%nat ltac:(simpl; lia)) as H1.
  change (f !! (walked ++ [c])%list = Some Dir) in H1. rewrite H1.
  apply IH. intros k Hk.
  rewrite <- (assoc_L (++)). apply (Hd (S k)). simpl. lia.
Qed.

Lemma fs_lookup_cons (f : gmap Path Node) (p : Path) :
  p ≠ [] → fs_lookup f p = f !! p.
Proof. by destruct p. Qed.

Lemma take_parent_ne (out : Path) k : out ≠ [] → take k (parent out) ≠ out.
Proof.
  intros Hout Hk. pose proof (length_parent out Hout) as Hlen.
  apply (f_equal length) in Hk. rewrite length_take in Hk. lia.
Qed.

Lemma mkdir_out_lookup out f dirs :
  out ≠ [] → mkdir_walk (parent out) [] (parent out) f = Ok dirs →
  dirs !! out = f !! out.
Proof.
  intros Hout Hm.
  destruct (mkdir_walk_elsewhere _ _ _ _ _ Hm out) as [?|(_ & _ & k & _ & Hk)];
    [done|].
  symmetry in Hk. by apply take_parent_ne in Hk.
Qed.

Lemma writable_mkdir w out :
  writable w out →
  ∃ dirs, mkdir_walk (parent out) [] (parent out) (fs w) = Ok dirs
          ∧ fs_lookup dirs out ≠ Some Dir.
Proof.
  intros (Hout & Hanc & Hdir).
  destruct (mkdir_walk_succeeds (parent out) (parent out) [] (fs w)) as [dirs Hm].
  { intros k d Hk. specialize (Hanc k d). simpl.
    rewrite fs_lookup_cons in Hanc; [done|].
    intros Ht. apply (f_equal length) in Ht. rewrite length_take in Ht.
    simpl in Ht. lia. }
  exists dirs. split; [done|].
  rewrite fs_lookup_cons in * by done. by rewrite (mkdir_out_lookup _ _ _ Hout Hm).
Qed.

Lemma render_and_save_eq df a b out dirs w :
  a ∈ columns df → b ∈ columns df → out ≠ [] →
  mkdir_walk (parent out) [] (parent out) (fs w) = Ok dirs →
  fs_lookup dirs out ≠ Some Dir →
  render_and_save df a b out w = (set_fs (<[out := written w df a b]> dirs) w, Ok out).
Proof.
  intros Ha Hb Hout Hm Hdir. unfold render_and_save, mbind, M_bind.
  rewrite (scatter_figure_present _ _ _ _ Ha Hb).
  unfold mkdir_parents. cbn [fs set_open_figs]. rewrite Hm.
  unfold savefig. cbn [fs set_fs].
  pose proof (mkdir_walk_ancestors _ _ _ Hm (length (parent out))) as Hpar.
  rewrite take_ge in Hpar by lia. rewrite Hpar.
  pose proof (next_figure_fresh (open_figs w)) as Hfresh.
  destruct (fs_lookup dirs out) as [[|d]|]; [done|..];
    unfold plt_close, mret, M_ret, set_open_figs, set_fs, written, rendered, next_fig;
    destruct w; simpl in *; rewrite ?sns_scatterplot_num; simpl;
    by rewrite close_after_open.
Qed.

Lemma render_and_save_dir df a b out dirs w :
  a ∈ columns df → b ∈ columns df →
  mkdir_walk (parent out) [] (parent out) (fs w) = Ok dirs →
  fs_lookup dirs out = Some Dir →
  render_and_save df a b out w
  = (set_fs dirs (set_open_figs ({[next_fig w]} ∪ open_figs w) w),
     Raise (IsADirectoryError out)).
Proof.
  intros Ha Hb Hm Hdir. unfold render_and_save, mbind, M_bind.
  rewrite (scatter_figure_present _ _ _ _ Ha Hb).
  unfold mkdir_parents. cbn [fs set_open_figs]. rewrite Hm.
  unfold savefig. cbn [fs set_fs]. rewrite Hdir. reflexivity.
Qed.

Lemma run_cli_on_chosen csv x y out w df cols a b :
  loaded_table csv w = Some df →
  get_numeric_columns df = Ok cols →
  chosen_axes x y cols = Ok (a, b) →
  run_cli csv x y out w = render_and_save df a b out w.
Proof.
  intros Hl Hn Hc.
  by rewrite (run_cli_loaded _ _ _ _ _ _ Hl), run_cli_on_steps, Hn, Hc.
Qed.

(** X7: on a table with two or more numeric columns a headless run with
    x or y unset returns [out_path] whenever the output location can be
    written, and what it leaves there is the plot of the first numeric
    column against the second; the default choice never meets the
    column-not-found error. *)
Theorem run_cli_default_axes_ok csv x y out w df a b rest :
  loaded_table csv w = Some df →
  get_numeric_columns df = Ok (a :: b :: rest) →
  x = None ∨ y = None →
  writable w out →
  ∃ dirs,
    mkdir_walk (parent out) [] (parent out) (fs w) = Ok dirs
    ∧ run_cli csv x y out w = (set_fs (<[out := written w df a b]> dirs) w, Ok out).
Proof.
  intros Hl Hn Hxy Hw.
  destruct (writable_mkdir _ _ Hw) as (dirs & Hm & Hdir). exists dirs.
  split; [done|].
  destruct (numeric_columns_present _ _ Hn) as [_ Hin].
  rewrite (run_cli_on_chosen _ _ _ _ _ _ _ a b Hl Hn).
  - apply render_and_save_eq; try done.
    + apply Hin. left.
    + apply Hin. right. left.
    + apply Hw.
  - unfold chosen_axes. destruct Hxy as [-> | ->]; [|destruct x]; reflexivity.
Qed.

Lemma writable_fresh w out :
  out ≠ [] → (∀ q, q ≠ [] → fs_lookup (fs w) q ≠ None → fs_lookup (fs w) q = Some Dir) →
  fs_lookup (fs w) out = None → writable w out.
Proof.
  intros Hout Hdirs Hnone. split; [done|split].
  - intros k d Hk. destruct (take k (parent out)) as [|c q] eqn:E; [done|].
    rewrite Hdirs in Hk; [done|done|]. by rewrite Hk.
  - by rewrite Hnone.
Qed.

Lemma writable_empty out : out ≠ [] → writable empty_world out.
Proof.
  intros Hout. apply writable_fresh; [done| |by destruct out].
  intros q Hq. rewrite fs_lookup_cons by done. simpl. by rewrite lookup_empty.
Qed.

Lemma run_cli_default_axes_ok_witness :
  ∃ dirs,
    mkdir_walk ["plots"] [] ["plots"] ∅ = Ok dirs
    ∧ run_cli None (Some "z") None ["plots"; "plot.png"] empty_world
      = (set_fs (<[ ["plots"; "plot.png"] := written empty_world _sample_df "x" "y" ]> dirs)
           empty_world,
         Ok ["plots"; "plot.png"]).
Proof.
  apply (run_cli_default_axes_ok None (Some "z") None ["plots"; "plot.png"]
           empty_world _sample_df "x" "y" ["z"]);
    [reflexivity | reflexivity | right; reflexivity | by apply writable_empty].
Defined.

(** X8: when both names are given, the headless run plots them as given
    provided the table has them: they need not be numeric columns (the
    classifier is only asked whether the table has a numeric column at
    all), and they may be the same column. *)
Theorem run_cli_explicit_axes_ok csv a b out w df cols :
  loaded_table csv w = Some df →
  get_numeric_columns df = Ok cols →
  a ∈ columns df → b ∈ columns df →
  writable w out →
  ∃ dirs,
    mkdir_walk (parent out) [] (parent out) (fs w) = Ok dirs
    ∧ run_cli csv (Some a) (Some b) out w
      = (set_fs (<[out := written w df a b]> dirs) w, Ok out).
Proof.
  intros Hl Hn Ha Hb Hw.
  destruct (writable_mkdir _ _ Hw) as (dirs & Hm & Hdir). exists dirs.
  split; [done|].
  rewrite (run_cli_on_chosen _ _ _ _ _ _ _ a b Hl Hn); [|done].
  apply render_and_save_eq; try done. apply Hw.
Qed.

Lemma run_cli_explicit_axes_ok_witness :
  ("cat" ∉ ["x"; "y"; "z"])
  ∧ ∃ dirs,
      mkdir_walk [] [] [] ∅ = Ok dirs
      ∧ run_cli None (Some "cat") (Some "cat") ["plot.png"] empty_world
        = (set_fs (<[ ["plot.png"] := written empty_world _sample_df "cat" "cat" ]> dirs)
             empty_world,
           Ok ["plot.png"]).
Proof.
  split; [compute_done|].
  apply (run_cli_explicit_axes_ok None "cat" "cat" ["plot.png"] empty_world
           _sample_df ["x"; "y"; "z"]);
    [reflexivity | reflexivity | compute_done | compute_done | by apply writable_empty].
Defined.

(** X9: on a table without numeric columns the headless run raises the
    classifier's error before anything else happens, whatever x and y
    are, also when both name columns the table has; the world is left as
    it was. *)
Theorem run_cli_no_numeric csv x y out w df :
  loaded_table csv w = Some df → numeric_names df = [] →
  run_cli csv x y out w
  = (w, Raise (ValueError "No numeric columns found in the dataset.")).
Proof.
  intros Hl Hn. rewrite (run_cli_loaded _ _ _ _ _ _ Hl), run_cli_on_steps.
  unfold get_numeric_columns. by rewrite select_dtypes_number_names, Hn.
Qed.

Lemma run_cli_no_numeric_witness :
  "name" ∈ columns text_only_df ∧ "flag" ∈ columns text_only_df
  ∧ run_cli (Some ["t.csv"]) (Some "name") (Some "flag") default_out text_only_world
    = (text_only_world, Raise (ValueError "No numeric columns found in the dataset.")).
Proof.
  split; [compute_done|split; [compute_done|]].
  apply (run_cli_no_numeric (Some ["t.csv"]) (Some "name") (Some "flag") default_out
           text_only_world text_only_df); reflexivity.
Defined.

(** X10: when both names are given and the table lacks one of them, the
    headless run raises the renderer's column-not-found error with the
    world as it was: no figure is opened and the output directories are
    not created. *)
Theorem run_cli_missing_column csv a b out w df cols :
  loaded_table csv w = Some df →
  get_numeric_columns df = Ok cols →
  a ∉ columns df ∨ b ∉ columns df →
  run_cli csv (Some a) (Some b) out w
  = (w, Raise (KeyError ("Columns not in DataFrame: x=" ++ Py.repr a
                           ++ ", y=" ++ Py.repr b))).
Proof.
  intros Hl Hn Hab.
  rewrite (run_cli_on_chosen _ _ _ _ _ _ _ a b Hl Hn); [|done].
  unfold render_and_save, mbind, M_bind.
  by rewrite (scatter_figure_absent _ _ _ _ Hab).
Qed.

Lemma run_cli_missing_column_witness :
  run_cli None (Some "x") (Some "w") ["plots"; "plot.png"] empty_world
  = (empty_world, Raise (KeyError "Columns not in DataFrame: x='x', y='w'")).
Proof.
  apply (run_cli_missing_column None "x" "w" ["plots"; "plot.png"] empty_world
           _sample_df ["x"; "y"; "z"]);
    [reflexivity | reflexivity | right; compute_done].
Defined.

(** X11: when [out_path] is an existing directory the headless run
    renders, creates the missing ancestor directories, and then fails in
    [savefig] with an is-a-directory error; the figure is never closed
    and stays in pyplot's registry. *)
Theorem run_cli_out_is_directory csv x y out w df cols a b :
  loaded_table csv w = Some df →
  get_numeric_columns df = Ok cols →
  chosen_axes x y cols = Ok (a, b) →
  a ∈ columns df → b ∈ columns df →
  (∀ k d, fs_lookup (fs w) (take k (parent out)) ≠ Some (File d)) →
  fs_lookup (fs w) out = Some Dir →
  ∃ dirs,
    mkdir_walk (parent out) [] (parent out) (fs w) = Ok dirs
    ∧ run_cli csv x y out w
      = (set_fs dirs (set_open_figs ({[next_fig w]} ∪ open_figs w) w),
         Raise (IsADirectoryError out))
    ∧ next_fig w ∉ open_figs w.
Proof.
  intros Hl Hn Hc Ha Hb Hanc Hdir.
  destruct (mkdir_walk_succeeds (parent out) (parent out) [] (fs w)) as [dirs Hm].
  { intros k d Hk. specialize (Hanc k d). simpl.
    rewrite fs_lookup_cons in Hanc; [done|].
    intros Ht. apply (f_equal length) in Ht. rewrite length_take in Ht.
    simpl in Ht. lia. }
  exists dirs. split; [done|]. split; [|apply next_figure_fresh].
  rewrite (run_cli_on_chosen _ _ _ _ _ _ _ a b Hl Hn Hc).
  apply render_and_save_dir; try done.
  destruct (decide (out = [])) as [->|Hout]; [done|].
  rewrite fs_lookup_cons in * by done.
  by rewrite (mkdir_out_lookup _ _ _ Hout Hm).
Qed.

Lemma run_cli_out_is_directory_witness :
  fs_lookup (fs plots_dir_world) ["plots"] = Some Dir
  ∧ run_cli None None None ["plots"] plots_dir_world
    = (set_open_figs {[1%nat]} plots_dir_world, Raise (IsADirectoryError ["plots"])).
Proof.
  split; [reflexivity|].
  destruct (run_cli_out_is_directory None None None ["plots"] plots_dir_world
              _sample_df ["x"; "y"; "z"] "x" "y")
    as (dirs & Hm & Hrun & _);
    [reflexivity | reflexivity | reflexivity | compute_done | compute_done
    | by intros [|k] d | reflexivity |].
  rewrite Hrun. injection Hm as <-. vm_compute. reflexivity.
Defined.

Lemma run_cli_ok_inv csv x y out w w' p :
  run_cli csv x y out w = (w', Ok p) →
  ∃ df cols a b dirs,
    loaded_table csv w = Some df
    ∧ get_numeric_columns df = Ok cols
    ∧ chosen_axes x y cols = Ok (a, b)
    ∧ a ∈ columns df ∧ b ∈ columns df ∧ out ≠ []
    ∧ mkdir_walk (parent out) [] (parent out) (fs w) = Ok dirs
    ∧ fs_lookup dirs out ≠ Some Dir
    ∧ p = out
    ∧ w' = set_fs (<[out := written w df a b]> dirs) w.
Proof.
  intros H. destruct (run_cli_ok_loaded _ _ _ _ _ _ _ H) as [df Hl].
  rewrite (run_cli_loaded _ _ _ _ _ _ Hl), run_cli_on_steps in H.
  destruct (get_numeric_columns df) as [cols|] eqn:Hn; [|done].
  destruct (chosen_axes x y cols) as [[a b]|] eqn:Hc; [|done].
  cbn [fst snd] in H.
  destruct (decide (a ∈ columns df)) as [Ha|Ha]; last first.
  { unfold render_and_save, mbind, M_bind in H.
    rewrite scatter_figure_absent in H by (by left). done. }
  destruct (decide (b ∈ columns df)) as [Hb|Hb]; last first.
  { unfold render_and_save, mbind, M_bind in H.
    rewrite scatter_figure_absent in H by (by right). done. }
  destruct (mkdir_walk (parent out) [] (parent out) (fs w)) as [dirs|e] eqn:Hm;
    last first.
  { unfold render_and_save, mbind, M_bind, mkdir_parents in H.
    rewrite (scatter_figure_present _ _ _ _ Ha Hb) in H.
    cbn [fs set_open_figs] in H. rewrite Hm in H. done. }
  assert (Hcase : fs_lookup dirs out = Some Dir ∨ fs_lookup dirs out ≠ Some Dir)
    by (destruct (fs_lookup dirs out) as [[|?]|]; [by left|by right..]).
  destruct Hcase as [Hdir|Hdir].
  { rewrite (render_and_save_dir _ _ _ _ _ _ Ha Hb Hm Hdir) in H. done. }
  assert (Hout : out ≠ []) by (intros ->; done).
  rewrite (render_and_save_eq _ _ _ _ _ _ Ha Hb Hout Hm Hdir) in H.
  injection H as <- <-. by exists df, cols, a, b, dirs.
Qed.

(** X12: a headless run that returned can be repeated: run again on the
    world it left, with the same arguments, it returns the same path and
    leaves that world exactly as it is (the ancestors exist, the file is
    overwritten by an identical one, the figure number is reused),
    provided the output did not overwrite the input file. *)
Theorem run_cli_idempotent csv x y out w w1 p :
  run_cli csv x y out w = (w1, Ok p) →
  csv ≠ Some out →
  run_cli csv x y out w1 = (w1, Ok p).
Proof.
  intros (df & cols & a & b & dirs & Hl & Hn & Hc & Ha & Hb & Hout & Hm & Hdir
          & -> & ->)%run_cli_ok_inv Hcsv.
  destruct (mkdir_walk_ok _ _ _ _ _ Hm) as [Hanc Hkeep].
  set (w1 := set_fs (<[out := written w df a b]> dirs) w).
  assert (Hl1 : loaded_table csv w1 = Some df).
  { unfold loaded_table in *. destruct csv as [q|]; [|done].
    destruct (decide (q = [])) as [->|Hq]; [done|].
    rewrite fs_lookup_cons in * by done. unfold w1. cbn [fs set_fs].
    rewrite lookup_insert_ne by congruence.
    destruct (fs w !! q) as [n|] eqn:E; [|done]. by rewrite (Hkeep _ _ E). }
  assert (Hm1 : mkdir_walk (parent out) [] (parent out) (fs w1) = Ok (fs w1)).
  { apply mkdir_walk_idem. intros k Hk. unfold w1. cbn [fs set_fs]. simpl.
    rewrite lookup_insert_ne; [by apply Hanc|].
    intros Heq. symmetry in Heq. by apply take_parent_ne in Heq. }
  assert (Hdir1 : fs_lookup (fs w1) out ≠ Some Dir).
  { rewrite fs_lookup_cons by done. unfold w1. cbn [fs set_fs].
    by rewrite lookup_insert_eq. }
  rewrite (run_cli_on_chosen _ _ _ _ _ _ _ a b Hl1 Hn Hc).
  rewrite (render_and_save_eq _ _ _ _ _ _ Ha Hb Hout Hm1 Hdir1).
  unfold w1, written, next_fig, set_fs. simpl. by rewrite insert_insert_eq.
Qed.

Lemma run_cli_idempotent_witness :
  let w1 := (run_cli None None None ["plots"; "plot.png"] empty_world).1 in
  run_cli None None None ["plots"; "plot.png"] w1 = (w1, Ok ["plots"; "plot.png"]).
Proof.
  simpl.
  apply (run_cli_idempotent None None None ["plots"; "plot.png"] empty_world);
    [vm_compute; reflexivity | done].
Defined.

(** X13: when the input file is there but [pd.read_csv] rejects it, the
    headless run ends with that very exception and the world as it was. *)
Theorem run_cli_read_error p f e x y out w :
  fs_lookup (fs w) p = Some (File f) → pd_read_csv f = Raise e →
  run_cli (Some p) x y out w = (w, Raise e).
Proof.
  intros Hp He. unfold run_cli, path_exists, _read_csv. run_M.
  rewrite Hp. rewrite bool_decide_eq_true_2 by eauto. simpl. by rewrite Hp, He.
Qed.

Lemma run_cli_read_error_witness :
  run_cli (Some ["bad.csv"]) None None default_out broken_csv_world
  = (broken_csv_world, Raise (ParserError "Error tokenizing data")).
Proof.
  apply (run_cli_read_error ["bad.csv"]
           (Csv (Raise (ParserError "Error tokenizing data")))); reflexivity.
Defined.

(** ** The dispatcher, further *)

Lemma ignores_stdout_bind {A B} (m : M A) (f : A → M B) :
  ignores_stdout m → (∀ a, ignores_stdout (f a)) → ignores_stdout (m ≫= f).
Proof.
  intros Hm Hf w o. unfold mbind, M_bind. rewrite Hm.
  destruct (m w) as [w1 [a|e]]; simpl; [apply Hf|done].
Qed.

Lemma ignores_stdout_pure {A} (r : result A) : ignores_stdout (fun w => (w, r)).
Proof. done. Qed.
Lemma ignores_stdout_path_exists p : ignores_stdout (path_exists p).
Proof. done. Qed.
Lemma ignores_stdout_read_csv p : ignores_stdout (_read_csv p).
Proof. intros w o. unfold _read_csv. simpl. by repeat case_match. Qed.
Lemma ignores_stdout_subplots : ignores_stdout plt_subplots.
Proof. done. Qed.
Lemma ignores_stdout_close fig : ignores_stdout (plt_close fig).
Proof. done. Qed.
Lemma ignores_stdout_mkdir p : ignores_stdout (mkdir_parents p).
Proof. intros w o. unfold mkdir_parents. simpl. by case_match. Qed.
Lemma ignores_stdout_savefig fig p dpi : ignores_stdout (savefig fig p dpi).
Proof. intros w o. unfold savefig. simpl. by repeat case_match. Qed.

Create HintDb out discriminated.
#[local] Hint Resolve ignores_stdout_path_exists ignores_stdout_read_csv
  ignores_stdout_subplots ignores_stdout_close ignores_stdout_mkdir
  ignores_stdout_savefig : out.
#[local] Hint Extern 1 (ignores_stdout (mret _)) => apply ignores_stdout_pure : out.
#[local] Hint Extern 1 (ignores_stdout (raise _)) => apply ignores_stdout_pure : out.
#[local] Hint Extern 1 (ignores_stdout (lift _)) => apply ignores_stdout_pure : out.

Ltac out_step :=
  first
    [ apply ignores_stdout_bind; [|intros ?]
    | match goal with
      | |- ignores_stdout (match ?x with _ => _ end) => destruct x
      end
    | solve [auto with out] ].

Lemma ignores_stdout_scatter_figure df x y : ignores_stdout (scatter_figure df x y).
Proof. unfold scatter_figure. repeat out_step. Qed.
#[local] Hint Resolve ignores_stdout_scatter_figure : out.

Lemma ignores_stdout_run_cli csv x y out : ignores_stdout (run_cli csv x y out).
Proof. unfold run_cli. repeat out_step. Qed.

Lemma run_cli_returns_out csv x y out w w' p :
  run_cli csv x y out w = (w', Ok p) → p = out.
Proof.
  by intros (? & ? & ? & ? & ? & _ & _ & _ & _ & _ & _ & _ & _ & -> & _)%run_cli_ok_inv.
Qed.

(** X14: without Streamlit (and without [--test]) the dispatcher prints
    its notice first, whatever happens next.  The headless run then does
    what it would have done without the notice; if it returns, the line
    Saved: out_path follows, and if it raises, the exception leaves
    [main] unchanged and nothing more is printed. *)
Theorem main_cli_mode td ui args w :
  arg_test args = false →
  main false td ui args w
  = match run_cli (arg_csv args) (arg_x args) (arg_y args) (arg_out args) w with
    | (w', Ok _) =>
        (set_stdout (stdout w ++ [cli_notice; saved_line (arg_out args)]) w', Ok ())
    | (w', Raise e) => (set_stdout (stdout w ++ [cli_notice]) w', Raise e)
    end.
Proof.
  intros Ht. rewrite main_without_test by done.
  unfold headless_action, mbind, M_bind, print at 1. cbn [fst snd].
  rewrite ignores_stdout_run_cli.
  destruct (run_cli _ _ _ _ w) as [w' [p|e]] eqn:Hr; cbn [fst snd]; [|done].
  apply run_cli_returns_out in Hr as ->.
  unfold print, saved_line, set_stdout. simpl. by rewrite <- (assoc_L (++)).
Qed.

Lemma main_cli_mode_witness :
  (main false ["tmp"] idle_session no_args empty_world).2 = Ok ()
  ∧ stdout (main false ["tmp"] idle_session no_args empty_world).1
    = [cli_notice; "Saved: plot.png"].
Proof.
  rewrite (main_cli_mode ["tmp"] idle_session no_args empty_world eq_refl).
  split; vm_compute; reflexivity.
Defined.

Lemma ignores_stdout_keeps {A} (m : M A) w :
  ignores_stdout m → stdout (m w).1 = stdout w.
Proof.
  intros Hm. specialize (Hm w (stdout w)).
  replace (set_stdout (stdout w) w) with w in Hm by (by destruct w).
  by rewrite Hm.
Qed.

Lemma ignores_stdout_run_test (t : M bool) : ignores_stdout t → ignores_stdout (run_test t).
Proof.
  intros Ht w o. unfold run_test. rewrite Ht.
  by destruct (t w) as [w1 [b|e]].
Qed.

Lemma keeps_page_run_test (t : M bool) : keeps_page t → keeps_page (run_test t).
Proof.
  intros Ht w. unfold run_test. specialize (Ht w).
  by destruct (t w) as [w1 [b|e]].
Qed.

Lemma ignores_stdout_test_cli td : ignores_stdout (test_cli_writes_png td).
Proof.
  intros w o. unfold test_cli_writes_png.
  set (body := written ← run_cli None None None (td ++ ["out.png"])%list;
               is_file written).
  assert (Hbody : ignores_stdout body).
  { apply ignores_stdout_bind; [apply ignores_stdout_run_cli|done]. }
  change (set_fs (<[td:=Dir]> (fs (set_stdout o w))) (set_stdout o w))
    with (set_stdout o (set_fs (<[td:=Dir]> (fs w)) w)).
  rewrite Hbody. by destruct (body (set_fs (<[td:=Dir]> (fs w)) w)).
Qed.

Lemma keeps_page_test_cli td : keeps_page (test_cli_writes_png td).
Proof.
  intros w. unfold test_cli_writes_png.
  set (body := written ← run_cli None None None (td ++ ["out.png"])%list;
               is_file written).
  assert (Hbody : keeps_page body).
  { apply keeps_page_bind; [apply keeps_page_run_cli|done]. }
  specialize (Hbody (set_fs (<[td:=Dir]> (fs w)) w)).
  by destruct (body (set_fs (<[td:=Dir]> (fs w)) w)).
Qed.

Lemma ignores_stdout_run_tests td : ignores_stdout (_run_tests_and_exit td).
Proof.
  unfold _run_tests_and_exit, test_numeric_detection, test_scatter_returns_figure.
  repeat first [ solve [auto with out] | apply ignores_stdout_run_test
               | apply ignores_stdout_test_cli | out_step ].
Qed.

Lemma keeps_page_run_tests td : keeps_page (_run_tests_and_exit td).
Proof.
  unfold _run_tests_and_exit, test_numeric_detection, test_scatter_returns_figure.
  repeat first [ solve [auto with page] | apply keeps_page_run_test
               | apply keeps_page_test_cli | page_step ].
Qed.

Lemma run_tests_raise td w :
  ∃ code, (_run_tests_and_exit td w).2 = Raise (SystemExit code)
          ∧ (code = 0%Z ∨ code = 1%Z).
Proof.
  unfold _run_tests_and_exit, mbind, M_bind, run_test.
  destruct (test_cli_writes_png td w) as [w1 [b1|e1]];
    destruct (test_numeric_detection w1) as [w2 [b2|e2]];
    destruct (test_scatter_returns_figure w2) as [w3 [b3|e3]]; simpl;
    repeat match goal with b : bool |- _ => destruct b end; simpl; eauto.
Qed.

(** X15: with [--test] the dispatcher runs the built-in tests and leaves
    by [SystemExit] with status 0 or 1, whether Streamlit is there or
    not: neither front end runs, nothing is put on the page and nothing
    is printed on standard output. *)
Theorem main_test_flag hs td ui args w :
  arg_test args = true →
  main hs td ui args w = _run_tests_and_exit td w
  ∧ (∃ code, (main hs td ui args w).2 = Raise (SystemExit code)
             ∧ (code = 0%Z ∨ code = 1%Z))
  ∧ page (main hs td ui args w).1 = page w
  ∧ stdout (main hs td ui args w).1 = stdout w.
Proof.
  intros Ht.
  assert (Heq : main hs td ui args w = _run_tests_and_exit td w).
  { unfold main. rewrite Ht. unfold mbind at 1, M_bind at 1.
    destruct (run_tests_raise td w) as (code & Hc & _).
    destruct (_run_tests_and_exit td w) as [w' [[]|e]]; simpl in *; done. }
  rewrite Heq. split; [done|split; [apply run_tests_raise|split]].
  - apply keeps_page_run_tests.
  - apply ignores_stdout_keeps, ignores_stdout_run_tests.
Qed.

Lemma main_test_flag_witness :
  arg_test test_args = true
  ∧ main true ["tmp"] idle_session test_args empty_world
    = _run_tests_and_exit ["tmp"] empty_world.
Proof.
  split; [reflexivity|].
  apply (main_test_flag true ["tmp"] idle_session test_args empty_world). reflexivity.
Defined.

Lemma rmtree_fresh (f : gmap Path Node) (td out : Path) (n : Node) :
  (∀ q, td `prefix_of` q → f !! q = None) → td `prefix_of` out →
  filter (fun kv : Path * Node => ¬ td `prefix_of` kv.1)
         (<[out := n]> (<[td := Dir]> f)) = f.
Proof.
  intros Hfresh Hout. apply map_eq. intros q. apply option_eq. intros m.
  rewrite map_lookup_filter_Some. simpl. split.
  - intros [Hl Hnp]. rewrite !lookup_insert_ne in Hl; [done|..].
    + intros <-. by apply Hnp.
    + intros <-. by apply Hnp.
  - intros Hq.
    assert (Hnp : ¬ td `prefix_of` q).
    { intros Hp. rewrite (Hfresh _ Hp) in Hq. done. }
    split; [|done]. rewrite !lookup_insert_ne; [done|..].
    + intros <-. by apply Hnp.
    + intros <-. by apply Hnp.
Qed.

Lemma test_cli_writes_png_passes td w :
  usable_tmp w td → test_cli_writes_png td w = (w, Ok true).
Proof.
  intros (Htd & Hanc & Hfresh). unfold test_cli_writes_png.
  set (out := (td ++ ["out.png"])%list).
  set (w_td := set_fs (<[td:=Dir]> (fs w)) w).
  assert (Hpar : parent out = td) by apply removelast_last.
  assert (Hout : out ≠ []) by (unfold out; by destruct td).
  assert (Hne : out ≠ td).
  { intros Heq. apply (f_equal length) in Heq. unfold out in Heq.
    rewrite length_app in Heq. simpl in Heq. lia. }
  assert (Hm : mkdir_walk (parent out) [] (parent out) (fs w_td) = Ok (fs w_td)).
  { rewrite Hpar. apply mkdir_walk_idem. intros k Hk. simpl.
    destruct (decide (k = length td)) as [->|Hlt].
    - rewrite take_ge by lia. by rewrite lookup_insert_eq.
    - assert (Htk : take k td ≠ []).
      { intros Heq. apply (f_equal length) in Heq. rewrite length_take in Heq.
        simpl in Heq. lia. }
      rewrite lookup_insert_ne.
      + rewrite <- fs_lookup_cons by done. apply Hanc. lia.
      + intros Heq. apply (f_equal length) in Heq. rewrite length_take in Heq. lia. }
  assert (Hdir : fs_lookup (fs w_td) out ≠ Some Dir).
  { rewrite fs_lookup_cons by done. simpl. rewrite lookup_insert_ne by done.
    rewrite Hfresh; [done|]. by apply prefix_app_r. }
  assert (Hrun : run_cli None None None out w_td
                 = (set_fs (<[out := written w_td _sample_df "x" "y"]> (fs w_td)) w_td,
                    Ok out)).
  { rewrite (run_cli_on_chosen None None None out w_td _sample_df
               ["x"; "y"; "z"] "x" "y" eq_refl eq_refl eq_refl).
    apply render_and_save_eq; try done; compute_done. }
  unfold mbind, M_bind. rewrite Hrun. unfold is_file. cbn [fst snd fs set_fs].
  rewrite fs_lookup_cons by done. rewrite lookup_insert_eq.
  unfold rmtree. cbn [fst snd fs set_fs w_td].
  rewrite rmtree_fresh; [by destruct w|done|by apply prefix_app_r].
Qed.

Lemma test_scatter_returns_figure_passes w :
  test_scatter_returns_figure w = (w, Ok true).
Proof.
  unfold test_scatter_returns_figure, mbind, M_bind.
  rewrite scatter_figure_present by compute_done.
  pose proof (next_figure_fresh (open_figs w)) as Hfresh.
  unfold plt_close, mret, M_ret, set_open_figs. destruct w. simpl in *.
  rewrite ?sns_scatterplot_num. simpl. by rewrite close_after_open.
Qed.

(** X16: with [--test], in a world where the temporary directory is
    usable, all three built-in tests pass: the dispatcher leaves by
    [SystemExit] with status 0 and the world is exactly as before (the
    temporary directory and the PNG written into it are removed, and
    every figure opened by the tests is closed). *)
Theorem main_self_test_passes hs td ui args w :
  arg_test args = true → usable_tmp w td →
  main hs td ui args w = (w, Raise (SystemExit 0)).
Proof.
  intros Ht Htmp. unfold main. rewrite Ht.
  unfold mbind at 1, M_bind at 1.
  unfold _run_tests_and_exit, mbind, M_bind, run_test.
  rewrite (test_cli_writes_png_passes _ _ Htmp). cbv beta iota.
  change (test_numeric_detection w) with (w, @Ok bool true). cbv beta iota.
  rewrite test_scatter_returns_figure_passes. reflexivity.
Qed.

Lemma main_self_test_passes_witness :
  usable_tmp empty_world ["tmp"]
  ∧ main true ["tmp"] idle_session test_args empty_world
    = (empty_world, Raise (SystemExit 0)).
Proof.
  assert (Htmp : usable_tmp empty_world ["tmp"]).
  { split; [done|split].
    - intros k Hk. simpl in Hk. by replace k with 0%nat by lia.
    - intros q _. apply lookup_empty. }
  split; [exact Htmp|].
  apply (main_self_test_passes true ["tmp"] idle_session test_args empty_world);
    [reflexivity|exact Htmp].
Defined.
